(** * DuoMotorController: PI speed control for two VNH2SP30 motor drivers

    A shallow embedding of [MotorControllerPI/DuoMotorController/main.c]
    (ATmega328P firmware) and the properties of its sensor-to-actuator path:
    the tick-interval computation, the RPS estimator, the duty-cycle mapping,
    the command parser and the timed command state machine.

    Conventions.
    - [uint8_t], [uint16_t], [uint32_t] and [int8_t] values are integers of
      [Z]; every operation that can leave the range writes its wrap-around.
    - [float] is the IEEE-754 binary32 format of avr-gcc, modelled by the
      Standard Library's [spec_float] at precision 24 and maximal exponent
      128, with round-to-nearest-even arithmetic.  On this target [double]
      has the same format, so the literal [0.9] is a binary32 number too.
    - A function that can reach [do_handle_fatal_error] (which never returns)
      yields [option]; [None] is the fatal halt.
    - The PI controller of [pid.h] is not part of the sources: its state type
      and its entry points form an interface, and every property holds for
      any implementation of it.
    - Interrupts are taken between the five polling blocks of the main loop;
      a block and a handler each run to completion, and a multi-byte global
      is read and written in one piece. *)

From Stdlib Require Import ZArith Lia Bool List Ascii SpecFloat.
Import ListNotations.

Local Open Scope Z_scope.

(** ** Fixed-width integers *)

Definition UINT32_MAX : Z := 4294967295.

Definition u8 (z : Z) : Z := z mod 256.
Definition u16 (z : Z) : Z := z mod 65536.
Definition u32 (z : Z) : Z := z mod 4294967296.

(** Conversion of a byte to [int8_t]: values above 127 wrap to negatives. *)
Definition i8 (z : Z) : Z := (z + 128) mod 256 - 128.

Definition is_u32 (z : Z) : Prop := 0 <= z < 4294967296.

(** [_BV(bit)], and [SET_BIT], [CLR_BIT], [IS_BIT_SET] on 8-bit registers:
    [REG |= _BV(BIT)], [REG &= ~_BV(BIT)] and [REG & _BV(BIT)]. *)
Definition _BV (bit : Z) : Z := Z.shiftl 1 bit.
Definition SET_BIT (reg bit : Z) : Z := u8 (Z.lor reg (_BV bit)).
Definition CLR_BIT (reg bit : Z) : Z := u8 (Z.land reg (Z.lnot (_BV bit))).
Definition IS_BIT_SET (reg bit : Z) : bool := negb (Z.land reg (_BV bit) =? 0).

(** A C truth value: any non-zero integer. *)
Definition truthy (z : Z) : bool := negb (z =? 0).

(** ** Binary32 arithmetic *)

Definition float : Type := spec_float.

Module F32.

Definition prec : Z := 24.
Definition emax : Z := 128.

(** Conversion of an integer to [float]. *)
Definition of_Z (z : Z) : float := binary_normalize prec emax z 0 false.

Definition add (x y : float) : float := SFadd prec emax x y.
Definition sub (x y : float) : float := SFsub prec emax x y.
Definition mul (x y : float) : float := SFmul prec emax x y.
Definition div (x y : float) : float := SFdiv prec emax x y.
Definition ltb (x y : float) : bool := SFltb x y.

(** Conversion of a [float] to an integer, truncating toward zero.  C leaves
    the conversion of a NaN, an infinity or an out-of-range value undefined;
    here these give 0, respectively the truncated value, which the caller
    then reduces to its width. *)
Definition to_Z (x : float) : Z :=
  match x with
  | S754_finite s m e =>
      let a := match e with
               | Zneg p => Z.shiftr (Zpos m) (Zpos p)
               | _ => Z.shiftl (Zpos m) e
               end in
      if s then - a else a
  | _ => 0
  end.

Definition zero : float := S754_zero false.
Definition one : float := Eval vm_compute in of_Z 1.
Definition half : float := Eval vm_compute in div (of_Z 1) (of_Z 2).

(** The literal [0.9], correctly rounded: 15099494 * 2^-24. *)
Definition nine_tenths : float := Eval vm_compute in div (of_Z 9) (of_Z 10).

End F32.

(** ** Constants of the firmware *)

Definition F_CPU : Z := 16000000.
Definition PULSES_PER_ROTATION : Z := 245.
Definition RPS_UPPER_DISCARD_LIMIT : Z := 10.
Definition RPS_ALPHA : float := F32.half.

(** [SAMPLING_FREQUENCY] is 62.5f, [SAMPLE_TIME_S] is (1.0f/SAMPLING_FREQUENCY). *)
Definition SAMPLING_FREQUENCY : float :=
  Eval vm_compute in F32.div (F32.of_Z 125) (F32.of_Z 2).
Definition SAMPLE_TIME_S : float :=
  Eval vm_compute in F32.div F32.one SAMPLING_FREQUENCY.

Definition PID_KP : float := Eval vm_compute in F32.of_Z 4.
(** 128.8773f, correctly rounded from 1288773/10000. *)
Definition PID_TI : float :=
  Eval vm_compute in F32.div (F32.of_Z 1288773) (F32.of_Z 10000).

Definition command_duration_pids : Z := 2 * 188.
Definition motor_on_rps : float := F32.one.

(** Pin numbers used by the direction outputs. *)
Definition PORTD7 : Z := 7.
Definition PORTB0 : Z := 0.
Definition PORTB1 : Z := 1.
Definition PORTB2 : Z := 2.

(** ** Types *)

Record hall_encoder_t : Type := mk_hall_encoder {
  timer_value : Z;              (* uint32_t *)
  buffered_timer_value : Z;     (* uint32_t *)
  current_rps : float;
  is_measurement_ready : Z      (* uint8_t *)
}.

Inductive command_e : Type :=
| COMMAND_FORWARD
| COMMAND_BACKWARD
| COMMAND_LEFT
| COMMAND_RIGHT
| COMMAND_STOP
| COMMAND_UNKNOWN.

Definition set_current_rps (h : hall_encoder_t) (r : float) : hall_encoder_t :=
  mk_hall_encoder (timer_value h) (buffered_timer_value h) r (is_measurement_ready h).

Definition set_is_measurement_ready (h : hall_encoder_t) (b : Z) : hall_encoder_t :=
  mk_hall_encoder (timer_value h) (buffered_timer_value h) (current_rps h) b.

(** ** Encoder capture *)

(** [hall_encoder_do_save_timer_value], given the values read from the
    16-bit register [TCNT1] and from [pulse_tick_counter_high_nibble]. *)
Definition hall_encoder_do_save_timer_value
    (tcnt1 high : Z) (hEncoder : option hall_encoder_t) : option hall_encoder_t :=
  match hEncoder with
  | None => None
  | Some h =>
      Some (mk_hall_encoder
              (Z.lor (u16 tcnt1) (u32 (Z.shiftl high 16)))
              (timer_value h)
              (current_rps h)
              1)
  end.

(** ** RPS estimator *)

(** The right-hand side assigned to [ticks] in [do_update_rps], evaluated in
    [uint32_t] before its conversion to [float]. *)
Definition tick_interval (h : hall_encoder_t) : Z :=
  if buffered_timer_value h >? timer_value h
  then u32 (timer_value h + u32 (UINT32_MAX - buffered_timer_value h))
  else u32 (timer_value h - buffered_timer_value h).

(** The tick interval across one wrap as the specification words it. *)
Definition spec_wrapped_interval (h : hall_encoder_t) : Z :=
  timer_value h + (2 ^ 32 - buffered_timer_value h).

Definition ticks_of (h : hall_encoder_t) : float := F32.of_Z (tick_interval h).

(** [F_CPU/(ticks * PULSES_PER_ROTATION)] *)
Definition new_rps_of (ticks : float) : float :=
  F32.div (F32.of_Z F_CPU) (F32.mul ticks (F32.of_Z PULSES_PER_ROTATION)).

(** [RPS_ALPHA * current_rps + (1-RPS_ALPHA) * new_rps] *)
Definition ema (cur new_rps : float) : float :=
  F32.add (F32.mul RPS_ALPHA cur)
          (F32.mul (F32.sub (F32.of_Z 1) RPS_ALPHA) new_rps).

Definition do_update_rps (hEncoder : option hall_encoder_t) : option hall_encoder_t :=
  match hEncoder with
  | None => None
  | Some h =>
      let ticks := ticks_of h in
      if F32.ltb ticks F32.nine_tenths then Some h
      else
        let new_rps := new_rps_of ticks in
        if F32.ltb new_rps (F32.of_Z RPS_UPPER_DISCARD_LIMIT)
        then Some (set_current_rps h (ema (current_rps h) new_rps))
        else Some h
  end.

(** The estimator as the specification words it: a reading whose interval is
    below 0.9 is dropped, a reading above the discard bound is dropped, any
    other reading enters the moving average with weight one half.  The
    result is written out field by field: only the filtered value can
    differ from the encoder given. *)
Definition spec_update_rps (h : hall_encoder_t) : hall_encoder_t :=
  let ticks := F32.of_Z (tick_interval h) in
  let raw_rps := F32.div (F32.of_Z 16000000) (F32.mul ticks (F32.of_Z 245)) in
  if F32.ltb ticks F32.nine_tenths then h
  else if F32.ltb (F32.of_Z 10) raw_rps then h
  else mk_hall_encoder
         (timer_value h)
         (buffered_timer_value h)
         (F32.add (F32.mul F32.half (current_rps h)) (F32.mul F32.half raw_rps))
         (is_measurement_ready h).

(** ** Duty cycle to output compare value *)

Definition calculate_oc_value_from_dc (duty_cycle : Z) : Z :=
  u8 (u32 (255 * u32 (100 - duty_cycle)) / 100).

(** The mapping as the specification words it:
    [round(max_compare * (100 - duty) / 100)], rounding to the nearest
    integer (halves upward). *)
Definition spec_compare_rounded (max_compare duty : Z) : Z :=
  (2 * (max_compare * (100 - duty)) + 100) / 200.

(** ** The command parser and the scheduler *)

(** A character constant, as the integer C compares it with. *)
Definition char (c : ascii) : Z := Z.of_nat (nat_of_ascii c).

(** The five polling blocks of the body of [while (1)] in [main]. *)
Inductive poll_point : Type :=
| POLL_RPS_1
| POLL_RPS_2
| POLL_PID
| POLL_COMMAND
| POLL_COMPLETE.

(** Interrupt requests, with the register values their handlers read. *)
Inductive event : Type :=
| EvMain                              (* the main loop runs its next block *)
| EvINT0 (tcnt1 : Z)                  (* encoder edge of motor 1 *)
| EvINT1 (tcnt1 : Z)                  (* encoder edge of motor 2 *)
| EvTIMER1_OVF
| EvTIMER2_COMPA
| EvUSART_RX (ucsr0a udr0 : Z).

Definition RXC0 : Z := 7.

(** The switch of [do_parse_command] over the masked buffer. *)
Definition decode_command (buffer : Z) : command_e :=
  if buffer =? char "w" then COMMAND_FORWARD
  else if buffer =? char "s" then COMMAND_BACKWARD
  else if buffer =? char "a" then COMMAND_LEFT
  else if buffer =? char "d" then COMMAND_RIGHT
  else if buffer =? char "x" then COMMAND_STOP
  else COMMAND_UNKNOWN.

(** [g_command_buffer & 0x7F], stored back into the [int8_t] buffer. *)
Definition mask_command (buffer : Z) : Z := i8 (Z.land buffer 127).

(** Direction outputs [(PORTB, PORTD)] after [set_motor_direction]. *)
Definition set_motor_direction_ports (command : command_e) (portb portd : Z) : Z * Z :=
  match command with
  | COMMAND_FORWARD =>
      let portd := SET_BIT portd PORTD7 in
      let portb := CLR_BIT portb PORTB1 in
      let portb := CLR_BIT portb PORTB0 in
      let portb := SET_BIT portb PORTB2 in
      (portb, portd)
  | COMMAND_BACKWARD =>
      let portd := CLR_BIT portd PORTD7 in
      let portb := SET_BIT portb PORTB1 in
      let portb := SET_BIT portb PORTB0 in
      let portb := CLR_BIT portb PORTB2 in
      (portb, portd)
  | COMMAND_LEFT =>
      let portd := SET_BIT portd PORTD7 in
      let portb := CLR_BIT portb PORTB1 in
      let portb := SET_BIT portb PORTB0 in
      let portb := CLR_BIT portb PORTB2 in
      (portb, portd)
  | COMMAND_RIGHT =>
      let portd := CLR_BIT portd PORTD7 in
      let portb := SET_BIT portb PORTB1 in
      let portb := CLR_BIT portb PORTB0 in
      let portb := SET_BIT portb PORTB2 in
      (portb, portd)
  | COMMAND_STOP =>
      let portd := CLR_BIT portd PORTD7 in
      let portb := CLR_BIT portb PORTB1 in
      let portb := CLR_BIT portb PORTB0 in
      let portb := CLR_BIT portb PORTB2 in
      (portb, portd)
  | COMMAND_UNKNOWN => (portb, portd)
  end.

(** Range checks by enumeration. *)
Fixpoint all_from (f : Z -> bool) (n : nat) (t : Z) : bool :=
  match n with
  | O => true
  | S k => f t && all_from f k (t + 1)
  end.

(** ** Normal binary32 numbers *)

(** A positive binary32 number with a full 24-bit mantissa and an exponent
    between [lo] and [hi]. *)
Definition normal32 (x : float) (lo hi : Z) : Prop :=
  exists m e, x = S754_finite false m e /\ 2 ^ 23 <= Zpos m < 2 ^ 24 /\ lo <= e <= hi.

(** The comparison of the raw reading with the discard limit is decided one
    way or the other for a tick count [t]: the reading is neither a NaN nor
    the limit itself. *)
Definition rps_decided (t : Z) : bool :=
  match SFcompare (new_rps_of (F32.of_Z t)) (F32.of_Z RPS_UPPER_DISCARD_LIMIT) with
  | Some Lt | Some Gt => true
  | _ => false
  end.

(** ** The PI controller interface *)

(** The interface of [pid.h]: the controller state, its zero-initialised
    value, and [PID_Init], [PID_Advance], [PID_ClearAccumulatedValues].
    The C functions update the controller through a pointer; here they return
    the new state, [PID_Advance] together with the controller output. *)
Class PID_API (pid_t : Type) : Type := {
  pid_zero : pid_t;
  PID_Init : pid_t -> float -> float -> float -> float -> float -> pid_t;
  PID_Advance : pid_t -> float -> float -> pid_t * float;
  PID_ClearAccumulatedValues : pid_t -> pid_t
}.

(** Modelled from the spec: [pid.h] and its implementation are missing from
    the sources.  A textbook PI controller that honours the contract of the
    specification: initialised with gains and output bounds, advanced by one
    sample to an output clamped to the bounds, cleared of its accumulated
    history while the gains stay.  It instantiates the interface in the
    concrete examples; no property below depends on it. *)
Record spec_pid_t : Type := mk_spec_pid {
  sp_kp : float;
  sp_td : float;
  sp_ti : float;
  sp_output_min : float;
  sp_output_max : float;
  sp_integral : float;
  sp_last_error : float
}.

Definition spec_clamp (lo hi x : float) : float :=
  if F32.ltb x lo then lo else if F32.ltb hi x then hi else x.

Definition spec_PID_Init (p : spec_pid_t) (kp td ti lo hi : float) : spec_pid_t :=
  mk_spec_pid kp td ti lo hi (sp_integral p) (sp_last_error p).

Definition spec_PID_Advance (p : spec_pid_t) (dt error : float) : spec_pid_t * float :=
  let integral := F32.add (sp_integral p) (F32.mul error dt) in
  let output := F32.mul (sp_kp p) (F32.add error (F32.div integral (sp_ti p))) in
  (mk_spec_pid (sp_kp p) (sp_td p) (sp_ti p) (sp_output_min p) (sp_output_max p)
               integral error,
   spec_clamp (sp_output_min p) (sp_output_max p) output).

Definition spec_PID_ClearAccumulatedValues (p : spec_pid_t) : spec_pid_t :=
  mk_spec_pid (sp_kp p) (sp_td p) (sp_ti p) (sp_output_min p) (sp_output_max p)
              F32.zero F32.zero.

#[export] Instance spec_pid_api : PID_API spec_pid_t := {
  pid_zero := mk_spec_pid F32.zero F32.zero F32.zero F32.zero F32.zero F32.zero F32.zero;
  PID_Init := spec_PID_Init;
  PID_Advance := spec_PID_Advance;
  PID_ClearAccumulatedValues := spec_PID_ClearAccumulatedValues
}.

(** ** The firmware *)

Set Implicit Arguments.

Section Firmware.

Variable pid_t : Type.
Context {pid_api : PID_API pid_t}.

Record motor_t : Type := mk_motor {
  hall_encoder : hall_encoder_t;
  pid : pid_t;
  setpoint : float
}.

Definition set_hall_encoder (m : motor_t) (h : hall_encoder_t) : motor_t :=
  mk_motor h (pid m) (setpoint m).
Definition set_pid (m : motor_t) (p : pid_t) : motor_t :=
  mk_motor (hall_encoder m) p (setpoint m).
Definition set_setpoint (m : motor_t) (r : float) : motor_t :=
  mk_motor (hall_encoder m) (pid m) r.

(** The globals and the registers the core writes. *)
Record mcu : Type := mk_mcu {
  pulse_tick_counter_high_nibble : Z;   (* uint16_t *)
  g_motor_1 : motor_t;
  g_motor_2 : motor_t;
  g_flag_pid : Z;   (* uint8_t *)
  g_command_timer_pids : Z;   (* uint32_t *)
  g_flag_command_received : Z;   (* uint8_t *)
  g_command_buffer : Z;   (* int8_t *)
  g_flag_command_running : Z;   (* uint8_t *)
  PORTB : Z;   (* register *)
  PORTD : Z;   (* register *)
  OCR0A : Z;   (* register *)
  OCR0B : Z;   (* register *)
  TCNT0 : Z;   (* register, as last written by the program *)
  loop_position : poll_point   (* next block of the main loop *)
}.

Definition set_pulse_tick_counter_high_nibble (s : mcu) (v : Z) : mcu :=
  mk_mcu v (g_motor_1 s) (g_motor_2 s)
         (g_flag_pid s) (g_command_timer_pids s) (g_flag_command_received s)
         (g_command_buffer s) (g_flag_command_running s)
         (PORTB s) (PORTD s) (OCR0A s) (OCR0B s) (TCNT0 s) (loop_position s).

Definition set_g_motor_1 (s : mcu) (v : motor_t) : mcu :=
  mk_mcu (pulse_tick_counter_high_nibble s) v (g_motor_2 s)
         (g_flag_pid s) (g_command_timer_pids s) (g_flag_command_received s)
         (g_command_buffer s) (g_flag_command_running s)
         (PORTB s) (PORTD s) (OCR0A s) (OCR0B s) (TCNT0 s) (loop_position s).

Definition set_g_motor_2 (s : mcu) (v : motor_t) : mcu :=
  mk_mcu (pulse_tick_counter_high_nibble s) (g_motor_1 s) v
         (g_flag_pid s) (g_command_timer_pids s) (g_flag_command_received s)
         (g_command_buffer s) (g_flag_command_running s)
         (PORTB s) (PORTD s) (OCR0A s) (OCR0B s) (TCNT0 s) (loop_position s).

Definition set_g_flag_pid (s : mcu) (v : Z) : mcu :=
  mk_mcu (pulse_tick_counter_high_nibble s) (g_motor_1 s) (g_motor_2 s)
         v (g_command_timer_pids s) (g_flag_command_received s)
         (g_command_buffer s) (g_flag_command_running s)
         (PORTB s) (PORTD s) (OCR0A s) (OCR0B s) (TCNT0 s) (loop_position s).

Definition set_g_command_timer_pids (s : mcu) (v : Z) : mcu :=
  mk_mcu (pulse_tick_counter_high_nibble s) (g_motor_1 s) (g_motor_2 s)
         (g_flag_pid s) v (g_flag_command_received s)
         (g_command_buffer s) (g_flag_command_running s)
         (PORTB s) (PORTD s) (OCR0A s) (OCR0B s) (TCNT0 s) (loop_position s).

Definition set_g_flag_command_received (s : mcu) (v : Z) : mcu :=
  mk_mcu (pulse_tick_counter_high_nibble s) (g_motor_1 s) (g_motor_2 s)
         (g_flag_pid s) (g_command_timer_pids s) v
         (g_command_buffer s) (g_flag_command_running s)
         (PORTB s) (PORTD s) (OCR0A s) (OCR0B s) (TCNT0 s) (loop_position s).

Definition set_g_command_buffer (s : mcu) (v : Z) : mcu :=
  mk_mcu (pulse_tick_counter_high_nibble s) (g_motor_1 s) (g_motor_2 s)
         (g_flag_pid s) (g_command_timer_pids s) (g_flag_command_received s)
         v (g_flag_command_running s)
         (PORTB s) (PORTD s) (OCR0A s) (OCR0B s) (TCNT0 s) (loop_position s).

Definition set_g_flag_command_running (s : mcu) (v : Z) : mcu :=
  mk_mcu (pulse_tick_counter_high_nibble s) (g_motor_1 s) (g_motor_2 s)
         (g_flag_pid s) (g_command_timer_pids s) (g_flag_command_received s)
         (g_command_buffer s) v
         (PORTB s) (PORTD s) (OCR0A s) (OCR0B s) (TCNT0 s) (loop_position s).

Definition set_PORTB (s : mcu) (v : Z) : mcu :=
  mk_mcu (pulse_tick_counter_high_nibble s) (g_motor_1 s) (g_motor_2 s)
         (g_flag_pid s) (g_command_timer_pids s) (g_flag_command_received s)
         (g_command_buffer s) (g_flag_command_running s)
         v (PORTD s) (OCR0A s) (OCR0B s) (TCNT0 s) (loop_position s).

Definition set_PORTD (s : mcu) (v : Z) : mcu :=
  mk_mcu (pulse_tick_counter_high_nibble s) (g_motor_1 s) (g_motor_2 s)
         (g_flag_pid s) (g_command_timer_pids s) (g_flag_command_received s)
         (g_command_buffer s) (g_flag_command_running s)
         (PORTB s) v (OCR0A s) (OCR0B s) (TCNT0 s) (loop_position s).

Definition set_OCR0A (s : mcu) (v : Z) : mcu :=
  mk_mcu (pulse_tick_counter_high_nibble s) (g_motor_1 s) (g_motor_2 s)
         (g_flag_pid s) (g_command_timer_pids s) (g_flag_command_received s)
         (g_command_buffer s) (g_flag_command_running s)
         (PORTB s) (PORTD s) v (OCR0B s) (TCNT0 s) (loop_position s).

Definition set_OCR0B (s : mcu) (v : Z) : mcu :=
  mk_mcu (pulse_tick_counter_high_nibble s) (g_motor_1 s) (g_motor_2 s)
         (g_flag_pid s) (g_command_timer_pids s) (g_flag_command_received s)
         (g_command_buffer s) (g_flag_command_running s)
         (PORTB s) (PORTD s) (OCR0A s) v (TCNT0 s) (loop_position s).

Definition set_TCNT0 (s : mcu) (v : Z) : mcu :=
  mk_mcu (pulse_tick_counter_high_nibble s) (g_motor_1 s) (g_motor_2 s)
         (g_flag_pid s) (g_command_timer_pids s) (g_flag_command_received s)
         (g_command_buffer s) (g_flag_command_running s)
         (PORTB s) (PORTD s) (OCR0A s) (OCR0B s) v (loop_position s).

Definition set_loop_position (s : mcu) (v : poll_point) : mcu :=
  mk_mcu (pulse_tick_counter_high_nibble s) (g_motor_1 s) (g_motor_2 s)
         (g_flag_pid s) (g_command_timer_pids s) (g_flag_command_received s)
         (g_command_buffer s) (g_flag_command_running s)
         (PORTB s) (PORTD s) (OCR0A s) (OCR0B s) (TCNT0 s) v.

(** *** Functions of the main loop *)

Definition set_motor_direction (command : command_e) (s : mcu) : mcu :=
  let '(portb, portd) := set_motor_direction_ports command (PORTB s) (PORTD s) in
  set_PORTD (set_PORTB s portb) portd.

Definition do_advance_pids (s : mcu) : mcu :=
  let error_1 :=
    F32.sub (setpoint (g_motor_1 s)) (current_rps (hall_encoder (g_motor_1 s))) in
  let '(pid_1, input_1) := PID_Advance (pid (g_motor_1 s)) SAMPLE_TIME_S error_1 in
  let s := set_g_motor_1 s (set_pid (g_motor_1 s) pid_1) in
  let s := set_OCR0B s (calculate_oc_value_from_dc (u32 (F32.to_Z input_1))) in
  let error_2 :=
    F32.sub (setpoint (g_motor_2 s)) (current_rps (hall_encoder (g_motor_2 s))) in
  let '(pid_2, input_2) := PID_Advance (pid (g_motor_2 s)) SAMPLE_TIME_S error_2 in
  let s := set_g_motor_2 s (set_pid (g_motor_2 s) pid_2) in
  let s := set_OCR0A s (calculate_oc_value_from_dc (u32 (F32.to_Z input_2))) in
  set_TCNT0 s 0.

Definition do_parse_command (s : mcu) : mcu :=
  if truthy (g_flag_command_running s) then s
  else
    let s := set_g_motor_1 s (set_setpoint (g_motor_1 s) motor_on_rps) in
    let s := set_g_motor_2 s (set_setpoint (g_motor_2 s) motor_on_rps) in
    let s := set_g_command_buffer s (mask_command (g_command_buffer s)) in
    let command := decode_command (g_command_buffer s) in
    let s := set_motor_direction command s in
    set_g_flag_command_running s 1.

Definition do_on_command_complete (s : mcu) : mcu :=
  let s := set_g_motor_1 s (set_setpoint (g_motor_1 s) (F32.of_Z 0)) in
  let s := set_g_motor_2 s (set_setpoint (g_motor_2 s) (F32.of_Z 0)) in
  let s := set_OCR0A s 255 in
  let s := set_OCR0B s 255 in
  let s := set_g_motor_1 s (set_pid (g_motor_1 s)
                              (PID_ClearAccumulatedValues (pid (g_motor_1 s)))) in
  set_g_motor_2 s (set_pid (g_motor_2 s)
                     (PID_ClearAccumulatedValues (pid (g_motor_2 s)))).

(** *** The blocks of the main loop *)

Definition poll_rps_1 (s : mcu) : option mcu :=
  if truthy (is_measurement_ready (hall_encoder (g_motor_1 s))) then
    match do_update_rps (Some (hall_encoder (g_motor_1 s))) with
    | None => None
    | Some h =>
        Some (set_g_motor_1 s
                (set_hall_encoder (g_motor_1 s) (set_is_measurement_ready h 0)))
    end
  else Some s.

Definition poll_rps_2 (s : mcu) : option mcu :=
  if truthy (is_measurement_ready (hall_encoder (g_motor_2 s))) then
    match do_update_rps (Some (hall_encoder (g_motor_2 s))) with
    | None => None
    | Some h =>
        Some (set_g_motor_2 s
                (set_hall_encoder (g_motor_2 s) (set_is_measurement_ready h 0)))
    end
  else Some s.

Definition poll_pid (s : mcu) : mcu :=
  if truthy (g_flag_pid s) && truthy (g_flag_command_running s)
  then set_g_flag_pid (do_advance_pids s) 0
  else s.

Definition poll_command (s : mcu) : mcu :=
  if truthy (g_flag_command_received s)
  then set_g_flag_command_received (do_parse_command s) 0
  else s.

Definition poll_complete (s : mcu) : mcu :=
  if truthy (g_flag_command_running s)
     && (g_command_timer_pids s >=? command_duration_pids)
  then set_g_command_timer_pids
         (set_g_flag_command_running (do_on_command_complete s) 0) 0
  else s.

(** One block of the loop body, at the position the loop has reached. *)
Definition main_step (s : mcu) : option mcu :=
  match loop_position s with
  | POLL_RPS_1 =>
      option_map (fun s => set_loop_position s POLL_RPS_2) (poll_rps_1 s)
  | POLL_RPS_2 =>
      option_map (fun s => set_loop_position s POLL_PID) (poll_rps_2 s)
  | POLL_PID => Some (set_loop_position (poll_pid s) POLL_COMMAND)
  | POLL_COMMAND => Some (set_loop_position (poll_command s) POLL_COMPLETE)
  | POLL_COMPLETE => Some (set_loop_position (poll_complete s) POLL_RPS_1)
  end.

(** *** Interrupt handlers *)

Definition ISR_INT0_vect (tcnt1 : Z) (s : mcu) : option mcu :=
  match hall_encoder_do_save_timer_value tcnt1 (pulse_tick_counter_high_nibble s)
          (Some (hall_encoder (g_motor_1 s))) with
  | None => None
  | Some h => Some (set_g_motor_1 s (set_hall_encoder (g_motor_1 s) h))
  end.

Definition ISR_INT1_vect (tcnt1 : Z) (s : mcu) : option mcu :=
  match hall_encoder_do_save_timer_value tcnt1 (pulse_tick_counter_high_nibble s)
          (Some (hall_encoder (g_motor_2 s))) with
  | None => None
  | Some h => Some (set_g_motor_2 s (set_hall_encoder (g_motor_2 s) h))
  end.

Definition ISR_TIMER1_OVF_vect (s : mcu) : mcu :=
  set_pulse_tick_counter_high_nibble s (u16 (pulse_tick_counter_high_nibble s + 1)).

Definition ISR_TIMER2_COMPA_vect (s : mcu) : mcu :=
  let s := if truthy (g_flag_command_running s)
           then set_g_command_timer_pids s (u32 (g_command_timer_pids s + 1))
           else s in
  set_g_flag_pid s 1.

Definition ISR_USART_RX_vect (ucsr0a udr0 : Z) (s : mcu) : mcu :=
  if IS_BIT_SET ucsr0a RXC0 && negb (truthy (g_flag_command_running s))
  then set_g_flag_command_received (set_g_command_buffer s (i8 udr0)) 1
  else s.

(** [do_parse_command] with receive interrupts taken inside it.  The
    switch reads the volatile [g_command_buffer] again after the masking
    store, and the guard of the receive handler stays open until the running
    flag is set on the last line of the function: a byte received between
    the store and the switch is the one the switch compares.  [rx] lists the
    [(UCSR0A, UDR0)] pairs read by the receive interrupts taken at that
    point, in order; with none the function is [do_parse_command]. *)
Definition do_parse_command_rx (rx : list (Z * Z)) (s : mcu) : mcu :=
  if truthy (g_flag_command_running s) then s
  else
    let s := set_g_motor_1 s (set_setpoint (g_motor_1 s) motor_on_rps) in
    let s := set_g_motor_2 s (set_setpoint (g_motor_2 s) motor_on_rps) in
    let s := set_g_command_buffer s (mask_command (g_command_buffer s)) in
    let s := fold_left (fun s r => ISR_USART_RX_vect (fst r) (snd r) s) rx s in
    let command := decode_command (g_command_buffer s) in
    let s := set_motor_direction command s in
    set_g_flag_command_running s 1.

(** The command block of the loop around it. *)
Definition poll_command_rx (rx : list (Z * Z)) (s : mcu) : mcu :=
  if truthy (g_flag_command_received s)
  then set_g_flag_command_received (do_parse_command_rx rx s) 0
  else s.

(** *** Executions *)

(** Interrupts are taken between the blocks of the main loop; a block and a
    handler each run to completion.  A receive interrupt inside the parser
    is the subject of [do_parse_command_rx]. *)
Definition step (ev : event) (s : mcu) : option mcu :=
  match ev with
  | EvMain => main_step s
  | EvINT0 tcnt1 => ISR_INT0_vect tcnt1 s
  | EvINT1 tcnt1 => ISR_INT1_vect tcnt1 s
  | EvTIMER1_OVF => Some (ISR_TIMER1_OVF_vect s)
  | EvTIMER2_COMPA => Some (ISR_TIMER2_COMPA_vect s)
  | EvUSART_RX ucsr0a udr0 => Some (ISR_USART_RX_vect ucsr0a udr0 s)
  end.

Fixpoint run (evs : list event) (s : mcu) : option mcu :=
  match evs with
  | [] => Some s
  | ev :: evs' =>
      match step ev s with
      | None => None
      | Some s' => run evs' s'
      end
  end.

(** Number of sample interrupts in a sequence of events. *)
Fixpoint sample_ticks (evs : list event) : Z :=
  match evs with
  | [] => 0
  | EvTIMER2_COMPA :: evs' => 1 + sample_ticks evs'
  | _ :: evs' => sample_ticks evs'
  end.

(** The state when [main] enters its loop: zero-initialised globals, both
    controllers initialised by [setup_PID], the encoder pull-ups set by
    [enable_encoder_interrupt]. *)
Definition initial_motor : motor_t :=
  mk_motor (mk_hall_encoder 0 0 (F32.of_Z 0) 0)
           (PID_Init pid_zero PID_KP (F32.of_Z 0) PID_TI (F32.of_Z 0) (F32.of_Z 95))
           F32.zero.

Definition initial_state : mcu :=
  mk_mcu 0 initial_motor initial_motor 0 0
         0 0 0 0 (SET_BIT (SET_BIT 0 2) 3)
         0 0 0 POLL_RPS_1.

Definition reachable (s : mcu) : Prop :=
  exists evs, run evs initial_state = Some s.

(** What the PI loop drives: both compare registers, the PWM counter reset
    and both controller states. *)
Definition control_outputs (s : mcu) : Z * Z * Z * pid_t * pid_t :=
  (OCR0A s, OCR0B s, TCNT0 s, pid (g_motor_1 s), pid (g_motor_2 s)).

(** Every state along an execution is Idle. *)
Fixpoint stays_idle (evs : list event) (s : mcu) : Prop :=
  truthy (g_flag_command_running s) = false /\
  match evs with
  | [] => True
  | ev :: evs' =>
      match step ev s with
      | Some s' => stays_idle evs' s'
      | None => False
      end
  end.

(** While Idle no sample has been counted. *)
Definition idle_timer_zero (s : mcu) : Prop :=
  truthy (g_flag_command_running s) = false -> g_command_timer_pids s = 0.


End Firmware.

Unset Implicit Arguments.

Arguments initial_state {pid_t pid_api}.
Arguments initial_motor {pid_t pid_api}.

(** ** Concrete states for the examples *)

(** The state an execution from [s] ends in. *)
Definition state_from (s : mcu spec_pid_t) (evs : list event) : mcu spec_pid_t :=
  match run evs s with
  | Some s' => s'
  | None => s
  end.

Definition state_after (evs : list event) : mcu spec_pid_t :=
  state_from initial_state evs.

(** A sample interrupt arrives while Idle and the loop goes round once. *)
Definition demo_idle_tick : list event :=
  [EvTIMER2_COMPA; EvMain; EvMain; EvMain; EvMain; EvMain].


(** The byte 's' arrives, the command duration elapses, and the loop goes
    round twice. *)
Definition demo_collision : list event :=
  EvUSART_RX 128 (char "s") :: repeat EvTIMER2_COMPA 376 ++ repeat EvMain 10.

(** The byte 'w' is received (with [RXC0] set in [UCSR0A]) and the loop has
    reached its command block. *)
Definition demo_receive : list event :=
  [EvUSART_RX 128 (char "w"); EvMain; EvMain; EvMain].

Definition demo_pending : mcu spec_pid_t := state_after demo_receive.

(** The command has been parsed and the iteration is finished. *)
Definition demo_running : mcu spec_pid_t :=
  state_after (demo_receive ++ [EvMain; EvMain]).

(** 376 sample interrupts later the loop is at its completion check. *)
Definition demo_expired : mcu spec_pid_t :=
  state_after (demo_receive ++ [EvMain; EvMain]
               ++ repeat EvTIMER2_COMPA 376 ++ [EvMain; EvMain; EvMain; EvMain]).

(** ** Further parts of the firmware *)

Definition is_u8 (z : Z) : Prop := 0 <= z < 256.
Definition is_u16 (z : Z) : Prop := 0 <= z < 65536.
Definition is_flag (z : Z) : Prop := z = 0 \/ z = 1.

(** [TGL_BIT(REG, BIT)], that is [REG ^= _BV(BIT)]. *)
Definition TGL_BIT (reg bit : Z) : Z := u8 (Z.lxor reg (_BV bit)).

(** *** The debug indicator on PB5 *)

Definition PORTB5 : Z := 5.

Definition debug_led_on (portb : Z) : Z := SET_BIT portb PORTB5.
Definition debug_led_off (portb : Z) : Z := CLR_BIT portb PORTB5.
Definition debug_led_toggle (portb : Z) : Z := TGL_BIT portb PORTB5.

(** [do_blink_debug_led]: on, wait, off, wait; [_delay_ms] only lets time
    pass, so the port ends as after the two writes. *)
Definition do_blink_debug_led (portb : Z) : Z := debug_led_off (debug_led_on portb).

(** [for (i = 0; i < times; ++i)]: no pass at all when [times] is not
    positive. *)
Definition do_blink_debug_led_times (times : Z) (portb : Z) : Z :=
  Nat.iter (Z.to_nat times) do_blink_debug_led portb.

(** *** Pin directions *)

(** [setup_gpio_pins] on [(DDRB, DDRD)], write by write in the order of the
    source; [PIN_MODE_OUTPUT] is [SET_BIT], [PIN_MODE_INPUT] is [CLR_BIT]. *)
Definition setup_gpio_pins (ddrb ddrd : Z) : Z * Z :=
  let ddrb := SET_BIT ddrb 5 in   (* debug LED *)
  let ddrd := SET_BIT ddrd 7 in   (* motor 1, IN A *)
  let ddrb := SET_BIT ddrb 1 in   (* motor 1, IN B *)
  let ddrd := SET_BIT ddrd 5 in   (* motor 1, PWM *)
  let ddrd := CLR_BIT ddrd 2 in   (* motor 1, Hall channel A *)
  let ddrb := SET_BIT ddrb 0 in   (* motor 2, IN A *)
  let ddrb := SET_BIT ddrb 2 in   (* motor 2, IN B *)
  let ddrd := SET_BIT ddrd 6 in   (* motor 2, PWM *)
  let ddrd := CLR_BIT ddrd 3 in   (* motor 2, Hall channel A *)
  let ddrd := CLR_BIT ddrd 0 in   (* UART RX *)
  let ddrd := SET_BIT ddrd 1 in   (* UART TX *)
  (ddrb, ddrd).

(** *** Serial transmission *)

(** [UDRE0] is bit 5 of [UCSR0A] (avr/io.h); the start byte is 0x02. *)
Definition UDRE0 : Z := 5.
Definition STX : Z := 2.

(** [while (!IS_BIT_SET(UCSR0A, UDRE0));] over the successive values read
    from [UCSR0A]: the wait takes readings up to the first one with the bit
    set and leaves the later ones; with no such reading it never ends. *)
Fixpoint wait_udre (ucsr0a : list Z) : option (list Z) :=
  match ucsr0a with
  | [] => None
  | r :: rest => if IS_BIT_SET r UDRE0 then Some rest else wait_udre rest
  end.

(** The data loop of the two send functions: for each index in turn, wait,
    then write [pData[i]] to [UDR0].  The result is the list of the bytes
    written so far and the readings left.  An index past the buffer reads
    as 0 here; C leaves it undefined. *)
Fixpoint usart_send_bytes (indices : list nat) (pData : list Z)
    (written : list Z) (ucsr0a : list Z) : option (list Z * list Z) :=
  match indices with
  | [] => Some (written, ucsr0a)
  | i :: indices' =>
      match wait_udre ucsr0a with
      | None => None
      | Some rest =>
          usart_send_bytes indices' pData (written ++ [nth i pData 0]) rest
      end
  end.

(** [for (i = 0; i < length; ++i)] *)
Definition _usart_send_little_endian (pData : list Z) (length : Z) (ucsr0a : list Z)
    : option (list Z * list Z) :=
  match wait_udre ucsr0a with
  | None => None
  | Some rest =>
      usart_send_bytes (seq 0 (Z.to_nat length)) pData [STX] rest
  end.

(** [for (i = length-1; i >= 0; --i)] *)
Definition _usart_send_big_endian (pData : list Z) (length : Z) (ucsr0a : list Z)
    : option (list Z * list Z) :=
  match wait_udre ucsr0a with
  | None => None
  | Some rest =>
      usart_send_bytes (rev (seq 0 (Z.to_nat length))) pData [STX] rest
  end.

(** The bytes that have reached [UDR0] when the data loop has used up the
    readings given or has ended, whichever comes first: a loop stuck in a
    wait has written the bytes before that wait and no more. *)
Fixpoint usart_udr0_bytes (indices : list nat) (pData : list Z) (ucsr0a : list Z)
    : list Z :=
  match indices with
  | [] => []
  | i :: indices' =>
      match wait_udre ucsr0a with
      | None => []
      | Some rest => nth i pData 0 :: usart_udr0_bytes indices' pData rest
      end
  end.

(** The bytes written to [UDR0] by the two send functions over the readings
    given, whether or not the function returns. *)
Definition _usart_send_little_endian_udr0 (pData : list Z) (length : Z)
    (ucsr0a : list Z) : list Z :=
  match wait_udre ucsr0a with
  | None => []
  | Some rest => STX :: usart_udr0_bytes (seq 0 (Z.to_nat length)) pData rest
  end.

Definition _usart_send_big_endian_udr0 (pData : list Z) (length : Z)
    (ucsr0a : list Z) : list Z :=
  match wait_udre ucsr0a with
  | None => []
  | Some rest => STX :: usart_udr0_bytes (rev (seq 0 (Z.to_nat length))) pData rest
  end.

(** *** Ranges and pin predicates *)

(** The filtered value is replaced for a tick count [t] exactly when [t] is
    at least 6531. *)
Definition rps_accepted_from_6531 (t : Z) : bool :=
  Bool.eqb (F32.ltb (new_rps_of (F32.of_Z t)) (F32.of_Z RPS_UPPER_DISCARD_LIMIT))
           (6531 <=? t).

Definition encoder_in_range (h : hall_encoder_t) : Prop :=
  is_u32 (timer_value h) /\ is_u32 (buffered_timer_value h) /\
  is_flag (is_measurement_ready h).

(** The direction inputs [(IN A, IN B)] of the two bridges. *)
Definition motor_1_inputs (portb portd : Z) : bool * bool :=
  (IS_BIT_SET portd PORTD7, IS_BIT_SET portb PORTB1).
Definition motor_2_inputs (portb portd : Z) : bool * bool :=
  (IS_BIT_SET portb PORTB0, IS_BIT_SET portb PORTB2).

Section Ranges.

Variable pid_t : Type.

(** Every global and register holds a value of its C type. *)
Definition in_range (s : mcu pid_t) : Prop :=
  is_u16 (pulse_tick_counter_high_nibble s) /\
  encoder_in_range (hall_encoder (g_motor_1 s)) /\
  encoder_in_range (hall_encoder (g_motor_2 s)) /\
  is_flag (g_flag_pid s) /\
  is_u32 (g_command_timer_pids s) /\
  is_flag (g_flag_command_received s) /\
  -128 <= g_command_buffer s <= 127 /\
  is_flag (g_flag_command_running s) /\
  is_u8 (PORTB s) /\ is_u8 (PORTD s) /\
  is_u8 (OCR0A s) /\ is_u8 (OCR0B s) /\ is_u8 (TCNT0 s).

(** No bridge has both inputs high, the encoder pull-ups on PD2 and PD3
    are on, and the debug indicator is off. *)
Definition ports_safe (s : mcu pid_t) : Prop :=
  motor_1_inputs (PORTB s) (PORTD s) <> (true, true) /\
  motor_2_inputs (PORTB s) (PORTD s) <> (true, true) /\
  IS_BIT_SET (PORTD s) 2 = true /\
  IS_BIT_SET (PORTD s) 3 = true /\
  IS_BIT_SET (PORTB s) PORTB5 = false.

(** No command byte is pending while a command runs. *)
Definition no_pending_while_running (s : mcu pid_t) : Prop :=
  truthy (g_flag_command_running s) = true -> g_flag_command_received s = 0.

(** While Idle both setpoints are 0. *)
Definition idle_setpoints_zero (s : mcu pid_t) : Prop :=
  truthy (g_flag_command_running s) = false ->
  setpoint (g_motor_1 s) = F32.zero /\ setpoint (g_motor_2 s) = F32.zero.

(** While Idle the compare registers hold their reset value 0 or the value
    0xFF written when a command completes. *)
Definition idle_compare_values (s : mcu pid_t) : Prop :=
  truthy (g_flag_command_running s) = false ->
  (OCR0A s = 0 /\ OCR0B s = 0) \/ (OCR0A s = 255 /\ OCR0B s = 255).

End Ranges.

Arguments in_range {pid_t}.
Arguments ports_safe {pid_t}.
Arguments no_pending_while_running {pid_t}.
Arguments idle_setpoints_zero {pid_t}.
Arguments idle_compare_values {pid_t}.

(** * Properties *)

(** ** Integer helpers *)

Lemma all_from_spec (f : Z -> bool) (n : nat) :
  forall t0, all_from f n t0 = true ->
  forall t, t0 <= t < t0 + Z.of_nat n -> f t = true.
Proof.
  induction n as [|n IH]; intros t0 H t Ht.
  - simpl in Ht. lia.
  - cbn [all_from] in H. apply andb_prop in H. destruct H as [H1 H2].
    destruct (Z.eq_dec t t0) as [->|Hne]; [exact H1|].
    apply (IH (t0 + 1)); [exact H2 | lia].
Qed.

Lemma u32_range (z : Z) : 0 <= u32 z < 2 ^ 32.
Proof. unfold u32. change (2 ^ 32) with 4294967296. apply Z.mod_pos_bound. lia. Qed.

Lemma u32_small (z : Z) : 0 <= z < 4294967296 -> u32 z = z.
Proof. intros H. unfold u32. apply Z.mod_small. exact H. Qed.

Lemma tick_interval_range (h : hall_encoder_t) : 0 <= tick_interval h < 2 ^ 32.
Proof. unfold tick_interval. destruct (_ >? _); apply u32_range. Qed.

(** Without a wrap the interval is the plain difference. *)
Lemma tick_interval_no_wrap (h : hall_encoder_t) :
  is_u32 (timer_value h) -> is_u32 (buffered_timer_value h) ->
  buffered_timer_value h <= timer_value h ->
  tick_interval h = timer_value h - buffered_timer_value h.
Proof.
  unfold is_u32, tick_interval. intros Ht Hb Hle.
  destruct (Z.gtb_spec (buffered_timer_value h) (timer_value h)); [lia|].
  apply u32_small. lia.
Qed.

(** Across a wrap the code adds [UINT32_MAX - buffered], one tick short of
    the distance [2^32 - buffered] to the wrap. *)
Lemma tick_interval_wrap (h : hall_encoder_t) :
  is_u32 (timer_value h) -> is_u32 (buffered_timer_value h) ->
  buffered_timer_value h > timer_value h ->
  tick_interval h = spec_wrapped_interval h - 1.
Proof.
  unfold is_u32, tick_interval, spec_wrapped_interval, UINT32_MAX. intros Ht Hb Hgt.
  destruct (Z.gtb_spec (buffered_timer_value h) (timer_value h)); [|lia].
  rewrite (u32_small (4294967295 - _)) by lia.
  rewrite u32_small by lia. lia.
Qed.

(** C2: the tick interval across one wrap of the 32-bit counter.  With the
    previous latch at 4294900000 and the new one at 1000 the counter has
    advanced by 1000 + (2^32 - 4294900000) = 68296 ticks; the estimator
    uses 68295. *)
Theorem tick_interval_across_wrap :
  let h := mk_hall_encoder 1000 4294900000 F32.zero 1 in
  buffered_timer_value h > timer_value h /\
  spec_wrapped_interval h = 68296 /\
  tick_interval h = 68295 /\
  ticks_of h = F32.of_Z 68295 /\
  ticks_of h <> F32.of_Z (spec_wrapped_interval h).
Proof.
  cbv zeta. repeat split; try reflexivity. vm_compute. discriminate.
Qed.

(** ** Duty cycle mapping *)

(** C6, as amended: the compare value is the quotient of the integer
    division, that is the mapping rounded toward zero. *)
Theorem calculate_oc_value_truncates (duty : Z) :
  0 <= duty <= 100 ->
  calculate_oc_value_from_dc duty = 255 * (100 - duty) / 100 /\
  0 <= calculate_oc_value_from_dc duty <= 255 /\
  calculate_oc_value_from_dc 0 = 255 /\
  calculate_oc_value_from_dc 100 = 0 /\
  calculate_oc_value_from_dc 50 = 127.
Proof.
  intros Hd.
  assert (E : calculate_oc_value_from_dc duty = 255 * (100 - duty) / 100).
  { unfold calculate_oc_value_from_dc.
    rewrite (u32_small (100 - duty)) by lia.
    rewrite u32_small by lia.
    unfold u8. apply Z.mod_small.
    split; [apply Z.div_pos; lia | apply Z.div_lt_upper_bound; lia]. }
  split; [exact E|]. split; [|repeat split; reflexivity].
  rewrite E. split; [apply Z.div_pos; lia|].
  apply Z.lt_succ_r. apply Z.div_lt_upper_bound; lia.
Qed.

(** A duty cycle of 50 percent. *)
Lemma calculate_oc_value_truncates_witness :
  0 <= 50 <= 100 /\ calculate_oc_value_from_dc 50 = 255 * (100 - 50) / 100.
Proof.
  split; [lia|]. apply (calculate_oc_value_truncates 50). lia.
Defined.

(** C6, as stated, fails: at a duty cycle of 2 percent the mapping is 249.9,
    which rounds to 250, and the code yields 249. *)
Lemma calculate_oc_value_not_rounded :
  0 <= 2 <= 100 /\
  calculate_oc_value_from_dc 2 = 249 /\
  spec_compare_rounded 255 2 = 250 /\
  calculate_oc_value_from_dc 2 <> spec_compare_rounded 255 2.
Proof.
  split; [lia|]. split; [reflexivity|]. split; [reflexivity|].
  vm_compute. discriminate.
Qed.

(** ** Binary32 rounding *)

Lemma digits2_pos_size (p : positive) : digits2_pos p = Pos.size p.
Proof. induction p; simpl; congruence. Qed.

Lemma Zdigits2_log2 (p : positive) : Zdigits2 (Zpos p) = Z.log2 (Zpos p) + 1.
Proof.
  unfold Zdigits2. rewrite digits2_pos_size.
  destruct p; simpl; lia.
Qed.

Lemma shr_1_m (r : shr_record) :
  0 <= shr_m r -> shr_m (shr_1 r) = Z.div2 (shr_m r).
Proof.
  destruct r as [m r s]; simpl. intros Hm.
  destruct m as [|[p|p|]|p]; simpl; try reflexivity; lia.
Qed.

Lemma iter_pos_nat {A} (f : A -> A) (n : positive) (x : A) :
  iter_pos f n x = Nat.iter (Pos.to_nat n) f x.
Proof.
  revert x. induction n as [n IH|n IH|]; intros x; cbn [iter_pos].
  - rewrite !IH, Pos2Nat.inj_xI.
    replace (S (2 * Pos.to_nat n))%nat with (S (Pos.to_nat n + Pos.to_nat n))%nat by lia.
    rewrite Nat.iter_succ_r, Nat.iter_add. reflexivity.
  - rewrite !IH, Pos2Nat.inj_xO.
    replace (2 * Pos.to_nat n)%nat with (Pos.to_nat n + Pos.to_nat n)%nat by lia.
    rewrite Nat.iter_add. reflexivity.
  - reflexivity.
Qed.

Lemma shr_iter_m (k : nat) (r : shr_record) :
  0 <= shr_m r ->
  shr_m (Nat.iter k shr_1 r) = Z.shiftr (shr_m r) (Z.of_nat k).
Proof.
  intros Hm. induction k as [|k IH].
  - simpl. now rewrite Z.shiftr_0_r.
  - rewrite Nat2Z.inj_succ.
    change (Nat.iter (S k) shr_1 r) with (shr_1 (Nat.iter k shr_1 r)).
    rewrite shr_1_m.
    + rewrite IH, Z.div2_spec, Z.shiftr_shiftr by lia. reflexivity.
    + rewrite IH. apply Z.shiftr_nonneg. exact Hm.
Qed.

Lemma round_nearest_even_bounds (m : Z) (l : location) :
  m <= round_nearest_even m l <= m + 1.
Proof.
  destruct l as [|[| |]]; simpl; try lia. destruct (Z.even m); lia.
Qed.

Lemma log2_range (a k : Z) :
  0 <= k -> 2 ^ k <= a < 2 ^ (k + 1) -> Z.log2 a = k.
Proof. intros Hk H. apply Z.log2_unique; [lia|]. now rewrite <- Z.add_1_r. Qed.

Lemma pos_iter_xO (k p : positive) : Zpos (Pos.iter xO p k) = Zpos p * 2 ^ Zpos k.
Proof.
  induction k as [|k IH] using Pos.peano_ind.
  - simpl. lia.
  - rewrite Pos.iter_succ, Pos2Z.inj_xO, IH, Pos2Z.inj_succ, Z.pow_succ_r by lia. lia.
Qed.

(** The first shift of a rounding drops the bits below the 24th. *)
Lemma shr_fexp_spec (mx : positive) (ex d : Z) (l : location) :
  d = Z.log2 (Zpos mx) + 1 ->
  24 <= d -> -125 <= d + ex ->
  exists r1, shr_fexp 24 128 (Zpos mx) ex l = (r1, d + ex - 24) /\
             shr_m r1 = Z.shiftr (Zpos mx) (d - 24).
Proof.
  intros Hdd Hd He. unfold shr_fexp.
  rewrite Zdigits2_log2, <- Hdd.
  assert (Hf : fexp 24 128 (d + ex) - ex = d - 24).
  { unfold fexp, emin. lia. }
  rewrite Hf.
  set (r0 := shr_record_of_loc (Zpos mx) l).
  assert (Hr0 : shr_m r0 = Zpos mx)
    by (unfold r0; destruct l as [|[| |]]; reflexivity).
  unfold shr. destruct (d - 24) as [|n|n] eqn:E; try lia.
  - exists r0. split; [f_equal; lia|]. now rewrite Z.shiftr_0_r.
  - exists (iter_pos shr_1 n r0). split; [f_equal; lia|].
    rewrite iter_pos_nat, shr_iter_m by (rewrite Hr0; lia).
    rewrite Hr0, positive_nat_Z. reflexivity.
Qed.

Lemma shiftr_normal (a d : Z) :
  0 < a -> d = Z.log2 a + 1 -> 24 <= d ->
  2 ^ 23 <= Z.shiftr a (d - 24) < 2 ^ 24.
Proof.
  intros Ha Hd Hl.
  assert (Hs : Z.log2 (Z.shiftr a (d - 24)) = 23).
  { rewrite Z.log2_shiftr by lia. lia. }
  destruct (Z.log2_spec (Z.shiftr a (d - 24))) as [A B].
  { destruct (Z.lt_ge_cases 0 (Z.shiftr a (d - 24))) as [H|H]; [exact H|].
    apply Z.log2_nonpos in H. lia. }
  rewrite Hs in A, B. exact (conj A B).
Qed.

Lemma normal32_weaken (x : float) (lo hi lo' hi' : Z) :
  normal32 x lo hi -> lo' <= lo -> hi <= hi' -> normal32 x lo' hi'.
Proof.
  intros (m & e & -> & Hm & He) Hlo Hhi. exists m, e. repeat split; lia.
Qed.

(** Rounding a positive mantissa of [d >= 24] bits yields a normal number
    whose exponent is [d + ex - 24], or one more when the rounding carries
    into a 25th bit. *)
Lemma binary_round_aux_normal (mx : positive) (ex d : Z) (l : location) :
  d = Z.log2 (Zpos mx) + 1 ->
  24 <= d -> -120 <= d + ex <= 120 ->
  normal32 (binary_round_aux 24 128 false (Zpos mx) ex l) (d + ex - 24) (d + ex - 23).
Proof.
  intros Hdd Hd He.
  unfold binary_round_aux.
  destruct (shr_fexp_spec mx ex d l Hdd Hd ltac:(lia)) as (r1 & -> & Hr1).
  pose proof (shiftr_normal (Zpos mx) d eq_refl Hdd Hd) as Hm1.
  rewrite <- Hr1 in Hm1.
  pose proof (round_nearest_even_bounds (shr_m r1) (loc_of_shr_record r1)) as Hb.
  set (m2 := round_nearest_even (shr_m r1) (loc_of_shr_record r1)) in *.
  destruct m2 as [|p2|p2] eqn:E2; try lia.
  assert (Hcase : Zpos p2 < 2 ^ 24 \/ Zpos p2 = 2 ^ 24) by lia.
  destruct Hcase as [Hlt | Heq].
  - assert (Hl2 : Z.log2 (Zpos p2) = 23) by (apply log2_range; lia).
    destruct (shr_fexp_spec p2 (d + ex - 24) 24 loc_Exact) as (r2 & -> & Hr2);
      try lia.
    change (24 - 24) with 0 in Hr2.
    rewrite Z.shiftr_0_r in Hr2. rewrite Hr2.
    replace (24 + (d + ex - 24) - 24 <=? 128 - 24) with true
      by (symmetry; apply Z.leb_le; lia).
    exists p2, (24 + (d + ex - 24) - 24). repeat split; lia.
  - assert (Hp : p2 = 16777216%positive) by lia. subst p2.
    destruct (shr_fexp_spec 16777216 (d + ex - 24) 25 loc_Exact) as (r2 & -> & Hr2);
      try reflexivity; try lia.
    change (Z.shiftr 16777216 (25 - 24)) with 8388608 in Hr2. rewrite Hr2.
    replace (25 + (d + ex - 24) - 24 <=? 128 - 24) with true
      by (symmetry; apply Z.leb_le; lia).
    exists 8388608%positive, (25 + (d + ex - 24) - 24). repeat split; lia.
Qed.

(** A positive 32-bit integer converts to a normal number. *)
Lemma of_Z_normal (t : Z) :
  1 <= t < 2 ^ 32 ->
  normal32 (F32.of_Z t) (Z.log2 t - 23) (Z.log2 t - 22).
Proof.
  intros Ht. destruct t as [|p|p]; try lia.
  unfold F32.of_Z, F32.prec, F32.emax, binary_normalize, binary_round.
  rewrite digits2_pos_size.
  assert (Hsz : Zpos (Pos.size p) = Z.log2 (Zpos p) + 1) by (destruct p; simpl; lia).
  rewrite Hsz.
  assert (Hl : 0 <= Z.log2 (Zpos p) < 32).
  { split; [apply Z.log2_nonneg|]. apply Z.log2_lt_pow2; lia. }
  assert (Hf : fexp 24 128 (Z.log2 (Zpos p) + 1 + 0) = Z.log2 (Zpos p) - 23).
  { unfold fexp, emin. lia. }
  rewrite Hf. unfold shl_align.
  destruct (Z.log2 (Zpos p) - 23 - 0) as [|k|k] eqn:E.
  - eapply normal32_weaken;
      [apply (binary_round_aux_normal p 0 (Z.log2 (Zpos p) + 1)); lia | lia | lia].
  - eapply normal32_weaken;
      [apply (binary_round_aux_normal p 0 (Z.log2 (Zpos p) + 1)); lia | lia | lia].
  - eapply normal32_weaken;
      [apply (binary_round_aux_normal (Pos.iter xO p k) (Z.log2 (Zpos p) - 23) 24);
       [rewrite pos_iter_xO, Z.log2_mul_pow2 by lia; lia | lia | lia]
      | lia | lia].
Qed.

Lemma of_Z_245 : F32.of_Z PULSES_PER_ROTATION = S754_finite false 16056320 (-16).
Proof. reflexivity. Qed.

Lemma of_Z_F_CPU : F32.of_Z F_CPU = S754_finite false 16000000 0.
Proof. reflexivity. Qed.

Lemma of_Z_limit : F32.of_Z RPS_UPPER_DISCARD_LIMIT = S754_finite false 10485760 (-20).
Proof. reflexivity. Qed.

(** The product with 245.0f raises the exponent by 7 to 9. *)
Lemma mul_245_normal (x : float) (lo hi : Z) :
  normal32 x lo hi -> -100 <= lo -> hi <= 80 ->
  normal32 (F32.mul x (F32.of_Z PULSES_PER_ROTATION)) (lo + 7) (hi + 9).
Proof.
  intros (m & e & -> & Hm & He) Hlo Hhi.
  rewrite of_Z_245. unfold F32.mul, F32.prec, F32.emax, SFmul. cbn [xorb].
  assert (Hp : 2 ^ 46 <= Zpos (m * 16056320) < 2 ^ 48) by lia.
  assert (Hl : Z.log2 (Zpos (m * 16056320)) = 46 \/ Z.log2 (Zpos (m * 16056320)) = 47).
  { destruct (Z_lt_le_dec (Zpos (m * 16056320)) (2 ^ 47)).
    - left. apply log2_range; lia.
    - right. apply log2_range; lia. }
  eapply normal32_weaken;
    [apply (binary_round_aux_normal _ _ (Z.log2 (Zpos (m * 16056320)) + 1)); lia
    | lia | lia].
Qed.

(** The quotient of 16000000.0f by a normal number of exponent [e] has an
    exponent between [-e-24] and [-e-22]. *)
Lemma div_F_CPU_normal (y : float) (lo hi : Z) :
  normal32 y lo hi -> -90 <= lo -> hi <= 90 ->
  normal32 (F32.div (F32.of_Z F_CPU) y) (- hi - 24) (- lo - 22).
Proof.
  intros (m & e & -> & Hm & He) Hlo Hhi.
  rewrite of_Z_F_CPU.
  unfold F32.div, F32.prec, F32.emax, SFdiv, SFdiv_core_binary. cbn [xorb].
  rewrite !Zdigits2_log2.
  assert (Hlm : Z.log2 (Zpos m) = 23) by (apply log2_range; lia).
  rewrite Hlm. change (Z.log2 16000000) with 23.
  assert (He' : Z.min (fexp 24 128 (23 + 1 + 0 - (23 + 1 + e))) (0 - e) = - e - 24).
  { unfold fexp, emin. lia. }
  rewrite He'.
  replace (0 - e - (- e - 24)) with 24 by lia.
  change (Z.shiftl 16000000 24) with 268435456000000.
  pose proof (Z_div_mod 268435456000000 (Zpos m) eq_refl) as Hdm.
  destruct (Z.div_eucl 268435456000000 (Zpos m)) as [q r].
  destruct Hdm as [Hq Hr].
  assert (Hqb : 16000000 <= q <= 32000000) by nia.
  destruct q as [|q|q]; try lia.
  assert (Hl : Z.log2 (Zpos q) = 23 \/ Z.log2 (Zpos q) = 24).
  { destruct (Z_lt_le_dec (Zpos q) (2 ^ 24)).
    - left. apply log2_range; lia.
    - right. apply log2_range; lia. }
  eapply normal32_weaken;
    [apply (binary_round_aux_normal _ _ (Z.log2 (Zpos q) + 1)); lia | lia | lia].
Qed.

(** ** RPS estimator *)

(** From 2^15 ticks on the raw reading is below 8, hence below the limit. *)
Lemma new_rps_high (t : Z) :
  2 ^ 15 <= t < 2 ^ 32 ->
  SFcompare (new_rps_of (F32.of_Z t)) (F32.of_Z RPS_UPPER_DISCARD_LIMIT) = Some Lt.
Proof.
  intros Ht.
  assert (Hl : 15 <= Z.log2 t < 32).
  { split; [apply Z.log2_le_pow2; lia | apply Z.log2_lt_pow2; lia]. }
  pose proof (of_Z_normal t ltac:(lia)) as H1.
  apply (normal32_weaken _ _ _ (-8) 9) in H1; try lia.
  apply mul_245_normal in H1; try lia.
  apply div_F_CPU_normal in H1; try lia.
  destruct H1 as (m & e & Hr & Hm & He). unfold new_rps_of. rewrite Hr, of_Z_limit.
  unfold SFcompare.
  replace (e ?= -20) with Lt by (symmetry; apply Z.compare_lt_iff; lia).
  reflexivity.
Qed.

(** Below 2^15 ticks every reading is checked. *)
Lemma new_rps_low : all_from rps_decided (Z.to_nat 32768) 1 = true.
Proof. vm_compute. reflexivity. Qed.

Lemma SFcompare_swap_finite (x : float) (my : positive) (ey : Z) :
  SFcompare (S754_finite false my ey) x
  = option_map CompOpp (SFcompare x (S754_finite false my ey)).
Proof.
  destruct x as [s|s| |s m e]; simpl; try (destruct s; reflexivity); try reflexivity.
  destruct s; [reflexivity|].
  rewrite (Z.compare_antisym e ey).
  destruct (e ?= ey); simpl; try reflexivity.
  change (Pos.compare_cont Eq my m) with (Pos.compare my m).
  change (Pos.compare_cont Eq m my) with (Pos.compare m my).
  rewrite (Pos.compare_antisym m my). reflexivity.
Qed.

(** The raw reading never equals the discard limit and is never a NaN: it
    is below the limit exactly when it does not exceed it. *)
Lemma new_rps_decided (t : Z) :
  1 <= t < 2 ^ 32 ->
  F32.ltb (new_rps_of (F32.of_Z t)) (F32.of_Z RPS_UPPER_DISCARD_LIMIT)
  = negb (F32.ltb (F32.of_Z RPS_UPPER_DISCARD_LIMIT) (new_rps_of (F32.of_Z t))).
Proof.
  intros Ht.
  assert (H : rps_decided t = true).
  { destruct (Z_lt_le_dec t (2 ^ 15)) as [Hlo|Hhi].
    - apply (all_from_spec rps_decided _ 1 new_rps_low).
      rewrite Z2Nat.id; lia.
    - unfold rps_decided. rewrite (new_rps_high t) by lia. reflexivity. }
  unfold rps_decided in H. unfold F32.ltb, SFltb.
  rewrite of_Z_limit in *. rewrite SFcompare_swap_finite.
  destruct (SFcompare (new_rps_of (F32.of_Z t)) (S754_finite false 10485760 (-20)))
    as [[| |]|]; simpl; try discriminate; reflexivity.
Qed.

(** An interval of zero ticks is below 0.9, any other is not. *)
Lemma ticks_below_nine_tenths (t : Z) :
  0 <= t < 2 ^ 32 ->
  F32.ltb (F32.of_Z t) F32.nine_tenths = (t =? 0).
Proof.
  intros Ht. destruct (Z.eqb_spec t 0) as [->|Hne]; [reflexivity|].
  destruct (of_Z_normal t ltac:(lia)) as (m & e & -> & Hm & He).
  assert (0 <= Z.log2 t) by apply Z.log2_nonneg.
  unfold F32.ltb, SFltb, F32.nine_tenths, SFcompare.
  replace (e ?= -24) with Gt by (symmetry; apply Z.compare_gt_iff; lia).
  reflexivity.
Qed.

Lemma do_update_rps_total (h : hall_encoder_t) :
  exists h', do_update_rps (Some h) = Some h' /\
             timer_value h' = timer_value h /\
             buffered_timer_value h' = buffered_timer_value h /\
             is_measurement_ready h' = is_measurement_ready h.
Proof.
  unfold do_update_rps.
  destruct (F32.ltb (ticks_of h) F32.nine_tenths); [now exists h|].
  destruct (F32.ltb _ _); eexists; split; try reflexivity; repeat split.
Qed.

(** An interval of 1000 ticks reads as about 65.3 revolutions per second,
    above the discard limit: the encoder is left as it was. *)
Example update_rps_1000_ticks :
  let h := mk_hall_encoder 1000 0 F32.one 1 in
  tick_interval h = 1000 /\
  F32.ltb (F32.of_Z 65) (new_rps_of (ticks_of h)) = true /\
  F32.ltb (new_rps_of (ticks_of h)) (F32.of_Z 66) = true /\
  do_update_rps (Some h) = Some h.
Proof. vm_compute. repeat split. Qed.

(** An interval of 65306 ticks reads as just over one revolution per second
    and moves a filtered value of 0 half-way there. *)
Example update_rps_65306_ticks :
  let h := mk_hall_encoder 65306 0 F32.zero 1 in
  do_update_rps (Some h)
  = Some (mk_hall_encoder 65306 0 (S754_finite false 8388624 (-24)) 1) /\
  new_rps_of (F32.of_Z 65306) = S754_finite false 8388624 (-23) /\
  F32.mul F32.half (new_rps_of (F32.of_Z 65306)) = S754_finite false 8388624 (-24).
Proof. vm_compute. repeat split. Qed.

(** C5: on a valid encoder [do_update_rps] does what the specification
    says: a reading with an interval below 0.9 ticks changes nothing, a
    reading above the discard limit of 10 keeps the previous filtered value,
    and any other reading updates the filtered value to
    [0.5 * filtered + 0.5 * raw] with [raw = 16000000 / (ticks * 245)]. *)
Theorem do_update_rps_follows_spec (h : hall_encoder_t) :
  do_update_rps (Some h) = Some (spec_update_rps h).
Proof.
  unfold do_update_rps, spec_update_rps, set_current_rps, ema, RPS_ALPHA.
  change (F32.sub (F32.of_Z 1) F32.half) with F32.half.
  pose proof (tick_interval_range h) as Hr.
  unfold ticks_of. rewrite ticks_below_nine_tenths by exact Hr.
  destruct (Z.eqb_spec (tick_interval h) 0) as [E|E]; [reflexivity|].
  fold (new_rps_of (F32.of_Z (tick_interval h))).
  change (F32.of_Z 16000000) with (F32.of_Z F_CPU).
  change (F32.of_Z 245) with (F32.of_Z PULSES_PER_ROTATION).
  fold (new_rps_of (F32.of_Z (tick_interval h))).
  change (F32.of_Z 10) with (F32.of_Z RPS_UPPER_DISCARD_LIMIT).
  rewrite new_rps_decided by lia.
  destruct (F32.ltb (F32.of_Z RPS_UPPER_DISCARD_LIMIT) _); reflexivity.
Qed.

(** ** The scheduler and the command state machine *)

Lemma mask_command_bit7 (b : Z) :
  0 <= b < 256 -> mask_command (i8 b) = mask_command (i8 (Z.land b 127)).
Proof.
  intros Hb.
  assert (H : all_from (fun b => mask_command (i8 b) =? mask_command (i8 (Z.land b 127)))
                       256 0 = true) by (vm_compute; reflexivity).
  apply Z.eqb_eq.
  apply (all_from_spec _ 256 0 H b). simpl. lia.
Qed.

Lemma IS_BIT_SET_testbit (reg bit : Z) :
  0 <= bit -> IS_BIT_SET reg bit = Z.testbit reg bit.
Proof.
  intros Hb. unfold IS_BIT_SET, _BV. rewrite Z.shiftl_1_l.
  destruct (Z.testbit reg bit) eqn:E.
  - destruct (Z.eqb_spec (Z.land reg (2 ^ bit)) 0) as [H|H]; [|reflexivity].
    assert (T : Z.testbit (Z.land reg (2 ^ bit)) bit = true).
    { rewrite Z.land_spec, E, Z.pow2_bits_true by exact Hb. reflexivity. }
    rewrite H, Z.bits_0 in T. discriminate.
  - replace (Z.land reg (2 ^ bit)) with 0; [reflexivity|].
    symmetry. apply Z.bits_inj'. intros n Hn.
    rewrite Z.land_spec, Z.bits_0, Z.pow2_bits_eqb by exact Hb.
    destruct (Z.eqb_spec bit n) as [->|Hne]; [rewrite E; reflexivity|].
    apply andb_false_r.
Qed.

Lemma u8_testbit (z i : Z) :
  0 <= i -> Z.testbit (u8 z) i = (i <? 8) && Z.testbit z i.
Proof.
  intros Hi. unfold u8. change 256 with (2 ^ 8).
  destruct (Z.ltb_spec i 8).
  - rewrite Z.mod_pow2_bits_low by lia. reflexivity.
  - rewrite Z.mod_pow2_bits_high by lia. reflexivity.
Qed.

(** A cleared bit reads 0, the other bits of the register are kept. *)
Lemma CLR_BIT_testbit (reg bit i : Z) :
  0 <= bit -> 0 <= i ->
  Z.testbit (CLR_BIT reg bit) i = (i <? 8) && Z.testbit reg i && negb (bit =? i).
Proof.
  intros Hb Hi. unfold CLR_BIT, _BV.
  rewrite u8_testbit, Z.land_spec, Z.lnot_spec, Z.shiftl_1_l, Z.pow2_bits_eqb by lia.
  rewrite andb_assoc. reflexivity.
Qed.


(** ** Registers bit by bit *)

Lemma SET_BIT_testbit (reg bit i : Z) :
  0 <= bit -> 0 <= i ->
  Z.testbit (SET_BIT reg bit) i = (i <? 8) && (Z.testbit reg i || (bit =? i)).
Proof.
  intros Hb Hi. unfold SET_BIT, _BV.
  rewrite u8_testbit, Z.lor_spec, Z.shiftl_1_l, Z.pow2_bits_eqb by lia.
  reflexivity.
Qed.

Lemma TGL_BIT_testbit (reg bit i : Z) :
  0 <= bit -> 0 <= i ->
  Z.testbit (TGL_BIT reg bit) i = (i <? 8) && xorb (Z.testbit reg i) (bit =? i).
Proof.
  intros Hb Hi. unfold TGL_BIT, _BV.
  rewrite u8_testbit, Z.lxor_spec, Z.shiftl_1_l, Z.pow2_bits_eqb by lia.
  reflexivity.
Qed.

Lemma is_u8_testbit (z i : Z) :
  is_u8 z -> 0 <= i -> Z.testbit z i = (i <? 8) && Z.testbit z i.
Proof.
  intros Hz Hi. rewrite <- u8_testbit by exact Hi.
  unfold u8. rewrite Z.mod_small by exact Hz. reflexivity.
Qed.

Lemma u8_is_u8 (z : Z) : is_u8 (u8 z).
Proof. unfold is_u8, u8. apply Z.mod_pos_bound. lia. Qed.

(** Rewrites the bits of registers built by the bit macros. *)
Ltac reg_bits :=
  rewrite ?IS_BIT_SET_testbit by lia;
  repeat (rewrite ?SET_BIT_testbit, ?CLR_BIT_testbit, ?TGL_BIT_testbit by lia).

(** Decides a goal on the bits of registers by cases on the bits read. *)
Ltac bits_cases :=
  reg_bits;
  repeat match goal with
         | |- context [Z.testbit ?r ?i] => destruct (Z.testbit r i)
         end;
  reflexivity.

(** ** The debug indicator *)

Lemma debug_led_off_on (portb : Z) :
  is_u8 portb -> debug_led_off (debug_led_on portb) = debug_led_off portb.
Proof.
  intros Hp. unfold debug_led_off, debug_led_on, PORTB5.
  apply Z.bits_inj'. intros i Hi. reg_bits.
  destruct (i <? 8), (Z.testbit portb i), (5 =? i); reflexivity.
Qed.

Lemma debug_led_off_off (portb : Z) :
  debug_led_off (debug_led_off portb) = debug_led_off portb.
Proof.
  unfold debug_led_off, PORTB5.
  apply Z.bits_inj'. intros i Hi. reg_bits.
  destruct (i <? 8), (Z.testbit portb i), (5 =? i); reflexivity.
Qed.

(** The indicator helpers act on PB5 alone: toggling twice gives the port
    back, a blink of one or more rounds leaves the indicator off and a blink
    of no round (a count of zero or below) leaves the port as it was; no
    other pin of the port changes. *)
Theorem debug_led_only_pb5 (portb times : Z) :
  is_u8 portb ->
  debug_led_toggle (debug_led_toggle portb) = portb /\
  do_blink_debug_led_times times portb
  = (if 0 <? times then debug_led_off portb else portb) /\
  IS_BIT_SET (debug_led_on portb) PORTB5 = true /\
  IS_BIT_SET (debug_led_off portb) PORTB5 = false /\
  IS_BIT_SET (debug_led_toggle portb) PORTB5 = negb (IS_BIT_SET portb PORTB5) /\
  forall bit, 0 <= bit -> bit <> PORTB5 ->
    IS_BIT_SET (debug_led_on portb) bit = IS_BIT_SET portb bit /\
    IS_BIT_SET (debug_led_off portb) bit = IS_BIT_SET portb bit /\
    IS_BIT_SET (debug_led_toggle portb) bit = IS_BIT_SET portb bit.
Proof.
  intros Hp. split; [|split].
  - unfold debug_led_toggle, PORTB5. apply Z.bits_inj'. intros i Hi. reg_bits.
    rewrite (is_u8_testbit portb i Hp Hi).
    destruct (i <? 8), (Z.testbit portb i), (5 =? i); reflexivity.
  - unfold do_blink_debug_led_times.
    destruct (Z.ltb_spec 0 times) as [Hpos|Hneg].
    + assert (E : exists k, Z.to_nat times = S k) by (exists (Z.to_nat (times - 1)); lia).
      destruct E as [k ->]. induction k as [|k IH].
      * simpl. unfold do_blink_debug_led. apply debug_led_off_on. exact Hp.
      * change (Nat.iter (S (S k)) do_blink_debug_led portb)
          with (do_blink_debug_led (Nat.iter (S k) do_blink_debug_led portb)).
        rewrite IH. unfold do_blink_debug_led.
        rewrite debug_led_off_on by apply u8_is_u8.
        apply debug_led_off_off.
    + replace (Z.to_nat times) with 0%nat by lia. reflexivity.
  - unfold debug_led_on, debug_led_off, debug_led_toggle, PORTB5.
    split; [|split; [|split]].
    + bits_cases.
    + bits_cases.
    + reg_bits. rewrite (is_u8_testbit portb 5 Hp) by lia. bits_cases.
    + intros bit Hb Hne. reg_bits. rewrite (is_u8_testbit portb bit Hp Hb).
      destruct (Z.eqb_spec 5 bit) as [E|E]; [congruence|].
      destruct (bit <? 8), (Z.testbit portb bit); repeat split; reflexivity.
Qed.

(** The port of a board whose direction pins and indicator are all on. *)
Lemma debug_led_only_pb5_witness :
  is_u8 39 /\
  do_blink_debug_led_times 3 39 = debug_led_off 39 /\
  debug_led_toggle (debug_led_toggle 39) = 39.
Proof.
  assert (H : is_u8 39) by (unfold is_u8; lia).
  split; [exact H|].
  pose proof (debug_led_only_pb5 39 3 H) as T.
  split; [exact (proj1 (proj2 T)) | exact (proj1 T)].
Defined.

(** ** Pin directions *)

(** [setup_gpio_pins] makes PB5, PB1, PB0, PB2, PD7, PD5, PD6 and PD1
    outputs and PD2, PD3 and PD0 inputs whatever the direction registers
    held, leaves the direction of PB3, PB4, PB6, PB7 and PD4 as it was, and
    changes nothing when run a second time. *)
Theorem setup_gpio_pins_directions (ddrb ddrd : Z) :
  is_u8 ddrb -> is_u8 ddrd ->
  let '(b, d) := setup_gpio_pins ddrb ddrd in
  (forall bit, In bit [5; 1; 0; 2] -> IS_BIT_SET b bit = true) /\
  (forall bit, In bit [7; 5; 6; 1] -> IS_BIT_SET d bit = true) /\
  (forall bit, In bit [2; 3; 0] -> IS_BIT_SET d bit = false) /\
  (forall bit, In bit [3; 4; 6; 7] -> IS_BIT_SET b bit = IS_BIT_SET ddrb bit) /\
  IS_BIT_SET d 4 = IS_BIT_SET ddrd 4 /\
  setup_gpio_pins b d = (b, d).
Proof.
  intros Hb Hd. unfold setup_gpio_pins.
  split; [|split; [|split; [|split; [|split]]]].
  - intros bit Hin. cbn [In] in Hin.
    repeat (destruct Hin as [<-|Hin]; [bits_cases|]). contradiction.
  - intros bit Hin. cbn [In] in Hin.
    repeat (destruct Hin as [<-|Hin]; [bits_cases|]). contradiction.
  - intros bit Hin. cbn [In] in Hin.
    repeat (destruct Hin as [<-|Hin]; [bits_cases|]). contradiction.
  - intros bit Hin. cbn [In] in Hin.
    repeat (destruct Hin as [<-|Hin];
            [reg_bits; rewrite (is_u8_testbit ddrb _ Hb) by lia; bits_cases|]).
    contradiction.
  - reg_bits. rewrite (is_u8_testbit ddrd 4 Hd) by lia. bits_cases.
  - f_equal; apply Z.bits_inj'; intros i Hi; reg_bits.
    + destruct (i <? 8), (Z.testbit ddrb i), (5 =? i), (1 =? i), (0 =? i), (2 =? i);
        reflexivity.
    + destruct (i <? 8), (Z.testbit ddrd i), (7 =? i), (5 =? i), (2 =? i), (6 =? i),
        (3 =? i), (0 =? i), (1 =? i); reflexivity.
Qed.

(** The direction registers after reset. *)
Lemma setup_gpio_pins_directions_witness :
  is_u8 0 /\ setup_gpio_pins 0 0 = (39, 226) /\
  setup_gpio_pins 39 226 = (39, 226).
Proof.
  assert (H : is_u8 0) by (unfold is_u8; lia).
  split; [exact H|]. split; [reflexivity|].
  exact (proj2 (proj2 (proj2 (proj2 (proj2 (setup_gpio_pins_directions 0 0 H H)))))).
Defined.

(** ** Encoder capture *)

Lemma lor_high_low (lo hi : Z) :
  0 <= lo < 65536 -> 0 <= hi ->
  Z.lor lo (Z.shiftl hi 16) = hi * 65536 + lo.
Proof.
  intros Hlo Hhi.
  assert (Hland : Z.land lo (Z.shiftl hi 16) = 0).
  { apply Z.bits_inj'. intros i Hi. rewrite Z.land_spec, Z.bits_0.
    destruct (Z.ltb_spec i 16) as [Hlt|Hge].
    - rewrite Z.shiftl_spec_low by exact Hlt. apply andb_false_r.
    - destruct (Z.eq_dec lo 0) as [->|Hne]; [rewrite Z.bits_0; reflexivity|].
      rewrite (Z.bits_above_log2 lo i); [reflexivity | lia |].
      assert (Z.log2 lo < 16) by (apply Z.log2_lt_pow2; lia). lia. }
  pose proof (Z.add_lor_land lo (Z.shiftl hi 16)) as H.
  rewrite Hland, Z.shiftl_mul_pow2 in H by lia.
  rewrite Z.shiftl_mul_pow2 by lia. change (2 ^ 16) with 65536 in *. lia.
Qed.

(** A capture latches the extended tick position
    [high * 65536 + TCNT1], a 32-bit value, moves the previous latch into
    the buffer, raises the ready flag and leaves the filtered value. *)
Theorem capture_extends_tick (tcnt1 high : Z) (h : hall_encoder_t) :
  is_u16 tcnt1 -> is_u16 high ->
  hall_encoder_do_save_timer_value tcnt1 high (Some h)
  = Some (mk_hall_encoder (high * 65536 + tcnt1) (timer_value h) (current_rps h) 1) /\
  is_u32 (high * 65536 + tcnt1).
Proof.
  unfold is_u16, is_u32. intros Ht Hh. split; [|lia].
  unfold hall_encoder_do_save_timer_value. f_equal. f_equal.
  unfold u16. rewrite Z.mod_small by exact Ht.
  rewrite (u32_small (Z.shiftl high 16)).
  - apply lor_high_low; lia.
  - rewrite Z.shiftl_mul_pow2 by lia. change (2 ^ 16) with 65536. lia.
Qed.

(** A capture at [TCNT1 = 0x1234] in the third lap of the timer. *)
Lemma capture_extends_tick_witness :
  is_u16 4660 /\ is_u16 2 /\
  hall_encoder_do_save_timer_value 4660 2 (Some (mk_hall_encoder 7 3 F32.zero 0))
  = Some (mk_hall_encoder 135732 7 F32.zero 1).
Proof.
  assert (H1 : is_u16 4660) by (unfold is_u16; lia).
  assert (H2 : is_u16 2) by (unfold is_u16; lia).
  split; [exact H1|]. split; [exact H2|].
  exact (proj1 (capture_extends_tick 4660 2 (mk_hall_encoder 7 3 F32.zero 0) H1 H2)).
Defined.

(** ** The acceptance threshold of the estimator *)

Lemma rps_threshold_low : all_from rps_accepted_from_6531 (Z.to_nat 32768) 1 = true.
Proof. vm_compute. reflexivity. Qed.

Lemma new_rps_below_limit_iff (t : Z) :
  1 <= t < 2 ^ 32 ->
  F32.ltb (new_rps_of (F32.of_Z t)) (F32.of_Z RPS_UPPER_DISCARD_LIMIT) = (6531 <=? t).
Proof.
  intros Ht. destruct (Z_lt_le_dec t (2 ^ 15)) as [Hlo|Hhi].
  - assert (H : rps_accepted_from_6531 t = true).
    { apply (all_from_spec rps_accepted_from_6531 _ 1 rps_threshold_low).
      rewrite Z2Nat.id; lia. }
    apply eqb_prop. exact H.
  - unfold F32.ltb, SFltb. rewrite (new_rps_high t) by lia.
    symmetry. apply Z.leb_le. lia.
Qed.

(** [do_update_rps] replaces the filtered value exactly when the tick
    interval is at least 6531 (a reading below 10 revolutions per second):
    the result then has the two latches and the ready flag of the encoder
    given and, as its filtered value, half the old one plus half of
    [16000000 / (ticks * 245)], in binary32.  Any shorter interval, zero
    included, leaves the encoder as it was. *)
Theorem update_rps_threshold (h : hall_encoder_t) :
  do_update_rps (Some h)
  = Some (if 6531 <=? tick_interval h
          then mk_hall_encoder
                 (timer_value h)
                 (buffered_timer_value h)
                 (F32.add
                    (F32.mul F32.half (current_rps h))
                    (F32.mul F32.half
                       (F32.div (F32.of_Z 16000000)
                          (F32.mul (F32.of_Z (tick_interval h)) (F32.of_Z 245)))))
                 (is_measurement_ready h)
          else h).
Proof.
  unfold do_update_rps.
  pose proof (tick_interval_range h) as Hr.
  unfold ticks_of. rewrite ticks_below_nine_tenths by exact Hr.
  destruct (Z.eqb_spec (tick_interval h) 0) as [E|E].
  - rewrite E. reflexivity.
  - rewrite new_rps_below_limit_iff by lia.
    unfold set_current_rps, ema, RPS_ALPHA, new_rps_of, F_CPU, PULSES_PER_ROTATION.
    change (F32.sub (F32.of_Z 1) F32.half) with F32.half.
    destruct (6531 <=? tick_interval h); reflexivity.
Qed.

(** ** Monotonicity of the duty cycle mapping *)

Lemma calculate_oc_value_quotient (duty : Z) :
  0 <= duty <= 100 ->
  calculate_oc_value_from_dc duty = 255 * (100 - duty) / 100.
Proof.
  intros Hd. unfold calculate_oc_value_from_dc.
  rewrite (u32_small (100 - duty)) by lia.
  rewrite u32_small by lia.
  unfold u8. apply Z.mod_small.
  split; [apply Z.div_pos; lia | apply Z.div_lt_upper_bound; lia].
Qed.

(** A larger duty cycle never gives a larger compare value, and a duty
    cycle of at most 95 percent, the upper bound given to both controllers,
    gives a compare value of at least 12. *)
Theorem calculate_oc_value_antitone (d1 d2 : Z) :
  0 <= d1 -> d1 <= d2 -> d2 <= 100 ->
  calculate_oc_value_from_dc d2 <= calculate_oc_value_from_dc d1 /\
  (d2 <= 95 -> 12 <= calculate_oc_value_from_dc d2).
Proof.
  intros H0 H12 H100.
  rewrite !calculate_oc_value_quotient by lia. split.
  - apply Z.div_le_mono; lia.
  - intros H95. apply Z.div_le_lower_bound; lia.
Qed.

Lemma calculate_oc_value_antitone_witness :
  0 <= 10 /\ 10 <= 95 /\ 95 <= 100 /\
  calculate_oc_value_from_dc 95 <= calculate_oc_value_from_dc 10 /\
  12 <= calculate_oc_value_from_dc 95.
Proof.
  assert (H1 : 0 <= 10) by lia. assert (H2 : 10 <= 95) by lia.
  assert (H3 : 95 <= 100) by lia.
  split; [exact H1|]. split; [exact H2|]. split; [exact H3|].
  pose proof (calculate_oc_value_antitone 10 95 H1 H2 H3) as T.
  split; [exact (proj1 T) | exact (proj2 T (Z.le_refl 95))].
Defined.

(** ** Direction outputs *)

Lemma direction_ports_inputs (command : command_e) (portb portd : Z) :
  let '(pb, pd) := set_motor_direction_ports command portb portd in
  motor_1_inputs pb pd
  = match command with
    | COMMAND_FORWARD | COMMAND_LEFT => (true, false)
    | COMMAND_BACKWARD | COMMAND_RIGHT => (false, true)
    | COMMAND_STOP => (false, false)
    | COMMAND_UNKNOWN => motor_1_inputs portb portd
    end /\
  motor_2_inputs pb pd
  = match command with
    | COMMAND_FORWARD | COMMAND_RIGHT => (false, true)
    | COMMAND_BACKWARD | COMMAND_LEFT => (true, false)
    | COMMAND_STOP => (false, false)
    | COMMAND_UNKNOWN => motor_2_inputs portb portd
    end /\
  IS_BIT_SET pd 2 = IS_BIT_SET portd 2 /\
  IS_BIT_SET pd 3 = IS_BIT_SET portd 3 /\
  IS_BIT_SET pb PORTB5 = IS_BIT_SET portb PORTB5.
Proof.
  destruct command;
    unfold set_motor_direction_ports, motor_1_inputs, motor_2_inputs,
      PORTD7, PORTB0, PORTB1, PORTB2, PORTB5;
    repeat split; try (f_equal; bits_cases); bits_cases.
Qed.

Lemma direction_ports_u8 (command : command_e) (portb portd : Z) :
  is_u8 portb -> is_u8 portd ->
  is_u8 (fst (set_motor_direction_ports command portb portd)) /\
  is_u8 (snd (set_motor_direction_ports command portb portd)).
Proof.
  intros Hb Hd. destruct command; cbn [set_motor_direction_ports fst snd];
    split; try apply u8_is_u8; assumption.
Qed.

(** [set_motor_direction] drives the two bridges as its table says,
    whatever the ports held: forward turns motor 1 clockwise (IN A high,
    IN B low) and motor 2 the other way, backward is the reverse, left and
    right turn both motors the same way, stop pulls all four inputs low and
    an unknown command changes nothing.  No command touches another pin of
    the two ports. *)
Theorem set_motor_direction_table (command : command_e) (portb portd : Z) :
  is_u8 portb -> is_u8 portd ->
  let '(pb, pd) := set_motor_direction_ports command portb portd in
  (motor_1_inputs pb pd, motor_2_inputs pb pd)
  = match command with
    | COMMAND_FORWARD => ((true, false), (false, true))
    | COMMAND_BACKWARD => ((false, true), (true, false))
    | COMMAND_LEFT => ((true, false), (true, false))
    | COMMAND_RIGHT => ((false, true), (false, true))
    | COMMAND_STOP => ((false, false), (false, false))
    | COMMAND_UNKNOWN => (motor_1_inputs portb portd, motor_2_inputs portb portd)
    end /\
  is_u8 pb /\ is_u8 pd /\
  (forall bit, 3 <= bit -> IS_BIT_SET pb bit = IS_BIT_SET portb bit) /\
  (forall bit, 0 <= bit -> bit <> PORTD7 -> IS_BIT_SET pd bit = IS_BIT_SET portd bit).
Proof.
  intros Hb Hd.
  destruct command; unfold set_motor_direction_ports, motor_1_inputs, motor_2_inputs,
    PORTD7, PORTB0, PORTB1, PORTB2;
    (split; [f_equal; f_equal; bits_cases|]);
    (split; [try apply u8_is_u8; try exact Hb|]);
    (split; [try apply u8_is_u8; try exact Hd|]);
    (split;
     [ intros bit Hbit; reg_bits; rewrite (is_u8_testbit portb bit Hb) by lia;
       destruct (Z.eqb_spec 0 bit), (Z.eqb_spec 1 bit), (Z.eqb_spec 2 bit); try lia;
       destruct (bit <? 8), (Z.testbit portb bit); reflexivity
     | intros bit Hbit Hne; reg_bits; rewrite (is_u8_testbit portd bit Hd) by lia;
       destruct (Z.eqb_spec 7 bit); try lia;
       destruct (bit <? 8), (Z.testbit portd bit); reflexivity ]).
Qed.

(** Left turn on a board with the encoder pull-ups on. *)
Lemma set_motor_direction_table_witness :
  is_u8 0 /\ is_u8 12 /\
  set_motor_direction_ports COMMAND_LEFT 0 12 = (1, 140) /\
  motor_1_inputs 1 140 = (true, false) /\ motor_2_inputs 1 140 = (true, false).
Proof.
  assert (H1 : is_u8 0) by (unfold is_u8; lia).
  assert (H2 : is_u8 12) by (unfold is_u8; lia).
  split; [exact H1|]. split; [exact H2|]. split; [reflexivity|].
  pose proof (proj1 (set_motor_direction_table COMMAND_LEFT 0 12 H1 H2)) as T.
  split; [exact (f_equal fst T) | exact (f_equal snd T)].
Defined.

(** ** Serial transmission *)

Lemma usart_send_bytes_written (indices : list nat) (pData : list Z) :
  forall written ucsr0a out rest,
    usart_send_bytes indices pData written ucsr0a = Some (out, rest) ->
    out = written ++ map (fun i => nth i pData 0) indices.
Proof.
  induction indices as [|i indices IH]; intros written ucsr0a out rest H;
    cbn [usart_send_bytes map] in *.
  - injection H as <- _. now rewrite app_nil_r.
  - destruct (wait_udre ucsr0a) as [r|]; [|discriminate].
    rewrite (IH _ _ _ _ H), <- app_assoc. reflexivity.
Qed.

Lemma map_nth_seq (pData : list Z) (n : nat) :
  (n <= length pData)%nat ->
  map (fun i => nth i pData 0) (seq 0 n) = firstn n pData.
Proof.
  revert pData. induction n as [|n IH]; intros pData Hn; [reflexivity|].
  destruct pData as [|x pData]; [simpl in Hn; lia|].
  cbn [seq map nth firstn]. f_equal.
  rewrite <- seq_shift, map_map. apply IH. simpl in Hn. lia.
Qed.

(** Whenever a send function returns it has written the start byte 0x02
    followed by the first [length] bytes of the buffer, in buffer order for
    the little-endian function and in reverse order for the big-endian one;
    a [length] of zero or below sends the start byte alone. *)
Theorem usart_send_frame (pData : list Z) (length : Z) (ucsr0a out rest : list Z) :
  length <= Z.of_nat (List.length pData) ->
  (_usart_send_little_endian pData length ucsr0a = Some (out, rest) ->
   out = STX :: firstn (Z.to_nat length) pData) /\
  (_usart_send_big_endian pData length ucsr0a = Some (out, rest) ->
   out = STX :: rev (firstn (Z.to_nat length) pData)).
Proof.
  intros Hlen.
  assert (Hn : (Z.to_nat length <= List.length pData)%nat) by lia.
  unfold _usart_send_little_endian, _usart_send_big_endian.
  destruct (wait_udre ucsr0a) as [r|]; [|split; discriminate].
  split; intros H; apply usart_send_bytes_written in H; rewrite H; cbn [app]; f_equal.
  - apply map_nth_seq. exact Hn.
  - rewrite map_rev. f_equal. apply map_nth_seq. exact Hn.
Qed.

(** Four bytes sent both ways with the transmitter ready. *)
Lemma usart_send_frame_witness :
  4 <= Z.of_nat (List.length [10; 20; 30; 40]) /\
  _usart_send_little_endian [10; 20; 30; 40] 4 (repeat 32 5)
  = Some ([2; 10; 20; 30; 40], []) /\
  _usart_send_big_endian [10; 20; 30; 40] 4 (repeat 32 5)
  = Some ([2; 40; 30; 20; 10], []) /\
  [2; 10; 20; 30; 40] = STX :: firstn (Z.to_nat 4) [10; 20; 30; 40] /\
  [2; 40; 30; 20; 10] = STX :: rev (firstn (Z.to_nat 4) [10; 20; 30; 40]).
Proof.
  assert (H : 4 <= Z.of_nat (List.length [10; 20; 30; 40])) by (simpl; lia).
  assert (L : _usart_send_little_endian [10; 20; 30; 40] 4 (repeat 32 5)
              = Some ([2; 10; 20; 30; 40], [])) by reflexivity.
  assert (B : _usart_send_big_endian [10; 20; 30; 40] 4 (repeat 32 5)
              = Some ([2; 40; 30; 20; 10], [])) by reflexivity.
  split; [exact H|]. split; [exact L|]. split; [exact B|]. split.
  - exact (proj1 (usart_send_frame [10; 20; 30; 40] 4 (repeat 32 5) _ _ H) L).
  - exact (proj2 (usart_send_frame [10; 20; 30; 40] 4 (repeat 32 5) _ _ H) B).
Defined.

Lemma wait_udre_ready (r : Z) (rest : list Z) :
  IS_BIT_SET r UDRE0 = true -> wait_udre (r :: rest) = Some rest.
Proof. intros H. cbn [wait_udre]. rewrite H. reflexivity. Qed.

Lemma wait_udre_never (ucsr0a : list Z) :
  Forall (fun r => IS_BIT_SET r UDRE0 = false) ucsr0a -> wait_udre ucsr0a = None.
Proof.
  induction 1 as [|r rest Hr _ IH]; [reflexivity|].
  cbn [wait_udre]. rewrite Hr. exact IH.
Qed.

Lemma usart_send_bytes_ready (indices : list nat) (pData : list Z) :
  forall written ucsr0a,
    Forall (fun r => IS_BIT_SET r UDRE0 = true) ucsr0a ->
    (List.length indices <= List.length ucsr0a)%nat ->
    usart_send_bytes indices pData written ucsr0a
    = Some (written ++ map (fun i => nth i pData 0) indices,
            skipn (List.length indices) ucsr0a).
Proof.
  induction indices as [|i indices IH]; intros written ucsr0a Hall Hlen;
    cbn [usart_send_bytes map List.length skipn].
  - now rewrite app_nil_r.
  - destruct ucsr0a as [|r rest]; [simpl in Hlen; lia|].
    inversion Hall as [|? ? Hr Hrest]; subst.
    rewrite (wait_udre_ready r rest Hr), IH; [|exact Hrest | simpl in Hlen; lia].
    rewrite <- app_assoc. reflexivity.
Qed.

Lemma usart_udr0_bytes_returned (indices : list nat) (pData : list Z) :
  forall written ucsr0a out rest,
    usart_send_bytes indices pData written ucsr0a = Some (out, rest) ->
    written ++ usart_udr0_bytes indices pData ucsr0a = out.
Proof.
  induction indices as [|i indices IH]; intros written ucsr0a out rest H;
    cbn [usart_send_bytes usart_udr0_bytes] in *.
  - injection H as <- _. apply app_nil_r.
  - destruct (wait_udre ucsr0a) as [r|]; [|discriminate].
    rewrite <- (IH _ _ _ _ H), <- app_assoc. reflexivity.
Qed.

(** A send that returns has written to [UDR0] the bytes it reports. *)
Lemma usart_send_udr0_returned (pData : list Z) (length : Z) (ucsr0a out rest : list Z) :
  (_usart_send_little_endian pData length ucsr0a = Some (out, rest) ->
   _usart_send_little_endian_udr0 pData length ucsr0a = out) /\
  (_usart_send_big_endian pData length ucsr0a = Some (out, rest) ->
   _usart_send_big_endian_udr0 pData length ucsr0a = out).
Proof.
  unfold _usart_send_little_endian, _usart_send_big_endian,
    _usart_send_little_endian_udr0, _usart_send_big_endian_udr0.
  destruct (wait_udre ucsr0a) as [r|]; [|split; discriminate].
  split; intros H; exact (usart_udr0_bytes_returned _ _ _ _ _ _ H).
Qed.

(** A transmitter that is ready twice and then no more: the send does not
    return, and the start byte and one data byte have been written. *)
Example usart_send_stuck_after_two :
  _usart_send_little_endian [7; 9] 2 [32; 32; 0; 0; 0] = None /\
  _usart_send_little_endian_udr0 [7; 9] 2 [32; 32; 0; 0; 0] = [2; 7] /\
  _usart_send_big_endian_udr0 [7; 9] 2 [32; 32; 0; 0; 0] = [2; 9].
Proof. repeat split. Qed.

(** With the transmitter ready at every poll a send returns after one poll
    per byte, the start byte included; with a transmitter that is never
    ready the send does not return and no byte reaches [UDR0], the start
    byte included. *)
Theorem usart_send_polls (pData : list Z) (length : Z) (ucsr0a : list Z) :
  0 <= length <= Z.of_nat (List.length pData) ->
  (Forall (fun r => IS_BIT_SET r UDRE0 = true) ucsr0a ->
   (Z.to_nat length < List.length ucsr0a)%nat ->
   _usart_send_little_endian pData length ucsr0a
   = Some (STX :: firstn (Z.to_nat length) pData, skipn (S (Z.to_nat length)) ucsr0a) /\
   _usart_send_big_endian pData length ucsr0a
   = Some (STX :: rev (firstn (Z.to_nat length) pData),
           skipn (S (Z.to_nat length)) ucsr0a)) /\
  (Forall (fun r => IS_BIT_SET r UDRE0 = false) ucsr0a ->
   _usart_send_little_endian pData length ucsr0a = None /\
   _usart_send_big_endian pData length ucsr0a = None /\
   _usart_send_little_endian_udr0 pData length ucsr0a = [] /\
   _usart_send_big_endian_udr0 pData length ucsr0a = []).
Proof.
  intros Hlen.
  assert (Hn : (Z.to_nat length <= List.length pData)%nat) by lia.
  unfold _usart_send_little_endian, _usart_send_big_endian,
    _usart_send_little_endian_udr0, _usart_send_big_endian_udr0. split.
  - intros Hall Hreads.
    destruct ucsr0a as [|r rest]; [simpl in Hreads; lia|].
    inversion Hall as [|? ? Hr Hrest]; subst.
    rewrite (wait_udre_ready r rest Hr).
    rewrite !usart_send_bytes_ready;
      rewrite ?length_rev, ?length_seq; try exact Hrest; try (simpl in Hreads; lia).
    rewrite map_rev, map_nth_seq by exact Hn. split; reflexivity.
  - intros Hnever. rewrite (wait_udre_never ucsr0a Hnever). repeat split.
Qed.

Lemma usart_send_polls_witness :
  0 <= 2 <= Z.of_nat (List.length [7; 9]) /\
  _usart_send_little_endian [7; 9] 2 [32; 32; 32; 32] = Some ([2; 7; 9], [32]) /\
  _usart_send_big_endian [7; 9] 2 [0; 0; 0] = None /\
  _usart_send_big_endian_udr0 [7; 9] 2 [0; 0; 0] = [].
Proof.
  assert (H : 0 <= 2 <= Z.of_nat (List.length [7; 9])) by (simpl; lia).
  split; [exact H|].
  pose proof (usart_send_polls [7; 9] 2 [32; 32; 32; 32] H) as T1.
  pose proof (usart_send_polls [7; 9] 2 [0; 0; 0] H) as T2.
  split.
  - refine (proj1 (proj1 T1 _ _)).
    + repeat constructor.
    + simpl. lia.
  - assert (N : Forall (fun r => IS_BIT_SET r UDRE0 = false) [0; 0; 0])
      by (repeat constructor).
    split.
    + exact (proj1 (proj2 (proj2 T2 N))).
    + exact (proj2 (proj2 (proj2 (proj2 T2 N)))).
Defined.

Section Properties.

Variable pid_t : Type.
Context {pid_api : PID_API pid_t}.
Implicit Types (s : mcu pid_t) (ev : event) (evs : list event).

(** *** What a block or a handler leaves alone *)

Lemma poll_rps_1_frame s :
  exists h, poll_rps_1 s = Some (set_g_motor_1 s (set_hall_encoder (g_motor_1 s) h)).
Proof.
  unfold poll_rps_1. destruct (truthy _).
  - destruct (do_update_rps_total (hall_encoder (g_motor_1 s))) as (h' & -> & _).
    eexists. reflexivity.
  - exists (hall_encoder (g_motor_1 s)).
    destruct s as [? [? ? ?] ? ? ? ? ? ? ? ? ? ? ? ?]. reflexivity.
Qed.

Lemma poll_rps_2_frame s :
  exists h, poll_rps_2 s = Some (set_g_motor_2 s (set_hall_encoder (g_motor_2 s) h)).
Proof.
  unfold poll_rps_2. destruct (truthy _).
  - destruct (do_update_rps_total (hall_encoder (g_motor_2 s))) as (h' & -> & _).
    eexists. reflexivity.
  - exists (hall_encoder (g_motor_2 s)).
    destruct s as [? ? [? ? ?] ? ? ? ? ? ? ? ? ? ? ?]. reflexivity.
Qed.

Lemma ISR_INT0_frame tcnt1 s :
  exists h, ISR_INT0_vect tcnt1 s
            = Some (set_g_motor_1 s (set_hall_encoder (g_motor_1 s) h)).
Proof. unfold ISR_INT0_vect. simpl. eexists. reflexivity. Qed.

Lemma ISR_INT1_frame tcnt1 s :
  exists h, ISR_INT1_vect tcnt1 s
            = Some (set_g_motor_2 s (set_hall_encoder (g_motor_2 s) h)).
Proof. unfold ISR_INT1_vect. simpl. eexists. reflexivity. Qed.

Lemma do_advance_pids_frame s :
  exists p1 p2 oca ocb,
    do_advance_pids s
    = set_TCNT0
        (set_OCR0A
           (set_g_motor_2
              (set_OCR0B (set_g_motor_1 s (set_pid (g_motor_1 s) p1)) ocb)
              (set_pid (g_motor_2 s) p2))
           oca)
        0.
Proof.
  unfold do_advance_pids.
  destruct (PID_Advance (pid (g_motor_1 s)) _ _) as [p1 i1]. cbn.
  destruct (PID_Advance (pid (g_motor_2 s)) _ _) as [p2 i2].
  do 4 eexists. reflexivity.
Qed.

(** Splits a step into its cases: the five blocks of the main loop and the
    five handlers, each with the state it produces. *)
Ltac step_cases Hstep :=
  match type of Hstep with
  | step ?ev ?s = Some ?s' =>
      destruct ev as [|tc|tc| | |ucsr udr]; cbn [step] in Hstep;
      [ unfold main_step in Hstep;
        let P := fresh "Hpos" in
        destruct (loop_position s) eqn:P;
        [ let h := fresh "h" in let E := fresh "E" in
          destruct (poll_rps_1_frame s) as [h E]; rewrite E in Hstep
        | let h := fresh "h" in let E := fresh "E" in
          destruct (poll_rps_2_frame s) as [h E]; rewrite E in Hstep
        | | | ]
      | let h := fresh "h" in let E := fresh "E" in
        destruct (ISR_INT0_frame tc s) as [h E]; rewrite E in Hstep
      | let h := fresh "h" in let E := fresh "E" in
        destruct (ISR_INT1_frame tc s) as [h E]; rewrite E in Hstep
      | | | ];
      cbn [option_map] in Hstep; injection Hstep as <-
  end.

Lemma step_total ev s : exists s', step ev s = Some s'.
Proof.
  destruct ev as [|tc|tc| | |ucsr udr]; cbn [step]; try (eexists; reflexivity).
  unfold main_step. destruct (loop_position s); try (eexists; reflexivity).
  - destruct (poll_rps_1_frame s) as [h ->]. eexists. reflexivity.
  - destruct (poll_rps_2_frame s) as [h ->]. eexists. reflexivity.
Qed.

(** No execution reaches the fatal halt. *)
Lemma run_total evs s : exists s', run evs s = Some s'.
Proof.
  revert s. induction evs as [|ev evs IH]; intros s; cbn [run].
  - eexists. reflexivity.
  - destruct (step_total ev s) as [s1 ->]. apply IH.
Qed.

Lemma run_invariant (P : mcu pid_t -> Prop) :
  (forall ev s s', P s -> step ev s = Some s' -> P s') ->
  forall evs s s', P s -> run evs s = Some s' -> P s'.
Proof.
  intros Hstep evs. induction evs as [|ev evs IH]; intros s s' HP Hrun; cbn [run] in Hrun.
  - injection Hrun as <-. exact HP.
  - destruct (step ev s) as [s1|] eqn:E; [|discriminate].
    apply (IH s1 s'); [|exact Hrun]. apply (Hstep ev s s1 HP E).
Qed.

(** *** Invariants *)

Lemma idle_timer_zero_step ev s s' :
  idle_timer_zero s -> step ev s = Some s' -> idle_timer_zero s'.
Proof.
  unfold idle_timer_zero. intros HP Hstep. step_cases Hstep; cbn; try exact HP.
  - unfold poll_pid. destruct (_ && _); [|exact HP].
    destruct (do_advance_pids_frame s) as (p1 & p2 & oca & ocb & ->). exact HP.
  - unfold poll_command. destruct (truthy (g_flag_command_received s)); cbn; [|exact HP].
    unfold do_parse_command. destruct (truthy (g_flag_command_running s)) eqn:R; cbn.
    + rewrite R. discriminate.
    + unfold set_motor_direction. destruct (set_motor_direction_ports _ _ _). cbn.
      discriminate.
  - unfold poll_complete. destruct (_ && _) eqn:C; cbn; [reflexivity|exact HP].
  - unfold ISR_TIMER2_COMPA_vect.
    destruct (truthy (g_flag_command_running s)) eqn:R; cbn; rewrite R.
    + discriminate.
    + exact HP.
  - unfold ISR_USART_RX_vect. destruct (_ && _); cbn; exact HP.
Qed.

Lemma idle_timer_zero_initial : idle_timer_zero (initial_state (pid_t := pid_t)).
Proof. intros _. reflexivity. Qed.

Lemma idle_timer_zero_reachable evs s :
  run evs initial_state = Some s -> idle_timer_zero s.
Proof.
  apply (run_invariant (@idle_timer_zero pid_t) idle_timer_zero_step).
  apply idle_timer_zero_initial.
Qed.


Lemma sample_ticks_cons ev evs :
  sample_ticks (ev :: evs) = sample_ticks [ev] + sample_ticks evs.
Proof. destruct ev; cbn [sample_ticks]; lia. Qed.

Lemma sample_ticks_nonneg evs : 0 <= sample_ticks evs.
Proof.
  induction evs as [|ev evs IH]; [cbn [sample_ticks]; lia|].
  rewrite sample_ticks_cons. destruct ev; cbn [sample_ticks]; lia.
Qed.

Local Arguments Z.add : simpl never.

Lemma step_while_counting ev s s' :
  g_flag_command_running s = 1 ->
  0 <= g_command_timer_pids s ->
  g_command_timer_pids s + sample_ticks [ev] < command_duration_pids ->
  step ev s = Some s' ->
  g_flag_command_running s' = 1 /\
  g_command_timer_pids s' = g_command_timer_pids s + sample_ticks [ev].
Proof.
  unfold command_duration_pids. intros Hr H0 Hlt Hstep.
  step_cases Hstep; cbn [sample_ticks] in *; cbn; try (split; [exact Hr | lia]).
  - unfold poll_pid. destruct (_ && _); [|split; [exact Hr | lia]].
    destruct (do_advance_pids_frame s) as (p1 & p2 & oca & ocb & ->). cbn.
    split; [exact Hr | lia].
  - unfold poll_command.
    destruct (truthy (g_flag_command_received s)); cbn; [|split; [exact Hr | lia]].
    unfold do_parse_command. rewrite Hr. cbn. split; [exact Hr | lia].
  - unfold poll_complete. rewrite Hr. cbn [truthy Z.eqb negb andb].
    destruct (Z.geb_spec (g_command_timer_pids s) command_duration_pids) as [G|G];
      [unfold command_duration_pids in G; lia|].
    split; [exact Hr | lia].
  - unfold ISR_TIMER2_COMPA_vect. rewrite Hr. cbn.
    split; [exact Hr|]. unfold u32. rewrite Z.mod_small; lia.
  - unfold ISR_USART_RX_vect. rewrite Hr. rewrite andb_false_r.
    split; [exact Hr | lia].
Qed.

(** While fewer than [command_duration_pids] samples have been counted, a
    running command keeps running and the counter follows the sample
    interrupts one by one. *)
Lemma run_while_counting evs :
  forall s s',
    g_flag_command_running s = 1 ->
    0 <= g_command_timer_pids s ->
    g_command_timer_pids s + sample_ticks evs < command_duration_pids ->
    run evs s = Some s' ->
    g_flag_command_running s' = 1 /\
    g_command_timer_pids s' = g_command_timer_pids s + sample_ticks evs.
Proof.
  induction evs as [|ev evs IH]; intros s s' Hr H0 Hlt Hrun; cbn [run] in Hrun.
  - injection Hrun as <-. cbn [sample_ticks]. split; [exact Hr | lia].
  - destruct (step ev s) as [s1|] eqn:E; [|discriminate].
    rewrite sample_ticks_cons in *.
    pose proof (sample_ticks_nonneg evs) as Hn.
    pose proof (sample_ticks_nonneg [ev]) as Hn1.
    destruct (step_while_counting ev s s1 Hr H0 ltac:(lia) E) as [Hr1 Ht1].
    destruct (IH s1 s' Hr1 ltac:(lia) ltac:(lia) Hrun) as [A B].
    split; [exact A | lia].
Qed.

Lemma step_idle_outputs ev s s' :
  truthy (g_flag_command_running s) = false ->
  step ev s = Some s' ->
  control_outputs s' = control_outputs s.
Proof.
  intros Hidle Hstep. unfold control_outputs.
  step_cases Hstep; cbn; try reflexivity.
  - unfold poll_pid. rewrite Hidle, andb_false_r. reflexivity.
  - unfold poll_command. destruct (truthy (g_flag_command_received s)); [|reflexivity].
    unfold do_parse_command. rewrite Hidle.
    unfold set_motor_direction. destruct (set_motor_direction_ports _ _ _). reflexivity.
  - unfold poll_complete. rewrite Hidle. reflexivity.
  - unfold ISR_TIMER2_COMPA_vect. rewrite Hidle. reflexivity.
  - unfold ISR_USART_RX_vect. destruct (_ && _); reflexivity.
Qed.

Lemma do_parse_command_idle s :
  truthy (g_flag_command_running s) = false ->
  let s1 := do_parse_command s in
  setpoint (g_motor_1 s1) = motor_on_rps /\
  setpoint (g_motor_2 s1) = motor_on_rps /\
  g_flag_command_running s1 = 1 /\
  g_command_timer_pids s1 = g_command_timer_pids s /\
  g_command_buffer s1 = mask_command (g_command_buffer s) /\
  (PORTB s1, PORTD s1)
  = set_motor_direction_ports
      (decode_command (mask_command (g_command_buffer s))) (PORTB s) (PORTD s).
Proof.
  intros Hidle. unfold do_parse_command. rewrite Hidle. cbn.
  unfold set_motor_direction. cbn.
  destruct (set_motor_direction_ports _ _ _) as [pb pd]. cbn.
  repeat split; reflexivity.
Qed.

(** *** The claims *)

(** C1: when a command is running and the sample counter has reached
    [command_duration_pids] (376), the completion check of the main loop
    returns the state machine to Idle; on that transition both setpoints
    are 0, both compare registers hold 0xFF (the compare value of a duty
    cycle of 0 percent) and both controllers have had their accumulated
    values cleared. *)
Theorem command_completion s :
  loop_position s = POLL_COMPLETE ->
  truthy (g_flag_command_running s) = true ->
  command_duration_pids <= g_command_timer_pids s ->
  command_duration_pids = 376 /\
  calculate_oc_value_from_dc 0 = 255 /\
  exists s',
    step EvMain s = Some s' /\
    g_flag_command_running s' = 0 /\
    g_command_timer_pids s' = 0 /\
    setpoint (g_motor_1 s') = F32.zero /\
    setpoint (g_motor_2 s') = F32.zero /\
    OCR0A s' = 255 /\
    OCR0B s' = 255 /\
    pid (g_motor_1 s') = PID_ClearAccumulatedValues (pid (g_motor_1 s)) /\
    pid (g_motor_2 s') = PID_ClearAccumulatedValues (pid (g_motor_2 s)).
Proof.
  intros Hpos Hrun Hdur. split; [reflexivity|]. split; [reflexivity|].
  cbn [step]. unfold main_step. rewrite Hpos. unfold poll_complete. rewrite Hrun.
  replace (g_command_timer_pids s >=? command_duration_pids) with true
    by (symmetry; apply Z.geb_le; exact Hdur).
  eexists. split; [reflexivity|]. cbn. repeat split; reflexivity.
Qed.

(** C3: at every Idle-to-Running transition of an execution the sample
    counter is 0 once the transition is made; the completion check that
    follows in the same iteration leaves the command running; and as long
    as fewer than [command_duration_pids] sample interrupts have occurred
    since the transition the command is still running, the counter being
    the number of those interrupts. *)
Theorem command_duration_start s :
  reachable s ->
  loop_position s = POLL_COMMAND ->
  truthy (g_flag_command_received s) = true ->
  truthy (g_flag_command_running s) = false ->
  exists s1,
    step EvMain s = Some s1 /\
    g_flag_command_running s1 = 1 /\
    g_command_timer_pids s1 = 0 /\
    loop_position s1 = POLL_COMPLETE /\
    step EvMain s1 = Some (set_loop_position s1 POLL_RPS_1) /\
    forall evs' s2,
      run evs' s1 = Some s2 ->
      sample_ticks evs' < command_duration_pids ->
      g_flag_command_running s2 = 1 /\
      g_command_timer_pids s2 = sample_ticks evs'.
Proof.
  intros [evs Hreach] Hpos Hrecv Hidle.
  pose proof (idle_timer_zero_reachable evs s Hreach Hidle) as Hzero.
  destruct (do_parse_command_idle s Hidle) as (_ & _ & Hr1 & Ht1 & _).
  set (s1 := set_loop_position
               (set_g_flag_command_received (do_parse_command s) 0) POLL_COMPLETE).
  assert (A1 : g_flag_command_running s1 = 1) by exact Hr1.
  assert (A2 : g_command_timer_pids s1 = 0) by (rewrite <- Hzero; exact Ht1).
  exists s1. split.
  { cbn [step]. unfold main_step. rewrite Hpos. unfold poll_command. rewrite Hrecv.
    reflexivity. }
  split; [exact A1|]. split; [exact A2|]. split; [reflexivity|]. split.
  - cbn [step]. unfold main_step, poll_complete. rewrite A1, A2. reflexivity.
  - intros evs' s2 Hrun2 Hlt.
    destruct (run_while_counting evs' s1 s2 A1) as [A B];
      [lia | rewrite A2; lia | exact Hrun2 |].
    split; [exact A | lia].
Qed.

(** C4, as amended: a byte that arrives while a command is running is read
    from the data register and dropped; the command buffer and the
    received flag keep their values, so the execution goes on as if the
    byte had never arrived. *)
Theorem rx_dropped_while_running s ucsr0a udr0 evs :
  truthy (g_flag_command_running s) = true ->
  ISR_USART_RX_vect ucsr0a udr0 s = s /\
  run (EvUSART_RX ucsr0a udr0 :: evs) s = run evs s.
Proof.
  intros Hrun.
  assert (E : ISR_USART_RX_vect ucsr0a udr0 s = s).
  { unfold ISR_USART_RX_vect. rewrite Hrun, andb_false_r. reflexivity. }
  split; [exact E|]. cbn [run step]. rewrite E. reflexivity.
Qed.

(** A parser that runs without a receive interrupt inside it classifies
    the byte in the buffer as it classifies that byte with bit 7 cleared,
    and from Idle it reaches the same state for both; 0xF7 in the buffer is
    parsed as 0x77, the forward command. *)
Lemma parser_masks_bit7 s (b : Z) :
  0 <= b < 256 ->
  decode_command (mask_command (i8 b))
  = decode_command (mask_command (i8 (Z.land b 127))) /\
  (truthy (g_flag_command_running s) = false ->
   do_parse_command (set_g_command_buffer s (i8 b))
   = do_parse_command (set_g_command_buffer s (i8 (Z.land b 127)))) /\
  i8 247 < 0 /\
  decode_command (mask_command (i8 247)) = COMMAND_FORWARD /\
  decode_command (mask_command (i8 119)) = COMMAND_FORWARD.
Proof.
  intros Hb. pose proof (mask_command_bit7 b Hb) as E.
  split; [rewrite E; reflexivity|]. split; [|repeat split; reflexivity].
  intros Hidle. unfold do_parse_command. cbn. rewrite Hidle, E. reflexivity.
Qed.

Lemma do_parse_command_rx_nil s : do_parse_command_rx [] s = do_parse_command s.
Proof. reflexivity. Qed.

(** A byte with bit 7 set that is received, while Idle, between the masking
    store of the parser and its switch stays in the buffer unmasked, as a
    negative [int8_t]; the switch matches no case on it, so the direction
    outputs are left as they were, and the command runs all the same. *)
Lemma parser_rx_high_bit_unknown s (ucsr0a b : Z) :
  truthy (g_flag_command_running s) = false ->
  IS_BIT_SET ucsr0a RXC0 = true ->
  128 <= b < 256 ->
  g_command_buffer (do_parse_command_rx [(ucsr0a, b)] s) = b - 256 /\
  PORTB (do_parse_command_rx [(ucsr0a, b)] s) = PORTB s /\
  PORTD (do_parse_command_rx [(ucsr0a, b)] s) = PORTD s /\
  g_flag_command_running (do_parse_command_rx [(ucsr0a, b)] s) = 1.
Proof.
  intros Hidle Hrxc Hb.
  assert (Ei : i8 b = b - 256).
  { unfold i8. replace (b + 128) with (b - 128 + 1 * 256) by lia.
    rewrite Z.mod_add by lia. rewrite Z.mod_small by lia. lia. }
  assert (Ed : decode_command (b - 256) = COMMAND_UNKNOWN).
  { unfold decode_command.
    repeat match goal with
           | |- context [b - 256 =? char ?c] =>
               replace (b - 256 =? char c) with false
                 by (symmetry; apply Z.eqb_neq; unfold char; lia)
           end.
    reflexivity. }
  unfold do_parse_command_rx. rewrite Hidle.
  cbn [fold_left fst snd]. unfold ISR_USART_RX_vect.
  cbn [g_flag_command_running set_g_command_buffer set_g_motor_1 set_g_motor_2].
  rewrite Hidle, Hrxc. cbn [negb andb].
  cbn [g_command_buffer set_g_flag_command_received set_g_command_buffer].
  rewrite Ei, Ed. unfold set_motor_direction.
  cbn [set_motor_direction_ports PORTB PORTD set_g_flag_command_received
         set_g_command_buffer set_g_motor_1 set_g_motor_2 set_PORTB set_PORTD
         set_g_flag_command_running g_command_buffer g_flag_command_running].
  repeat split.
Qed.

(** C8: while no command is running the PI block of the main loop does
    nothing, and along an execution that stays Idle, whatever sample ticks
    arrive, the compare registers, the PWM counter reset and the controller
    states keep their values. *)
Theorem control_paused_while_idle evs :
  forall s s',
    stays_idle evs s ->
    run evs s = Some s' ->
    poll_pid s = s /\
    control_outputs s' = control_outputs s /\
    truthy (g_flag_command_running s') = false.
Proof.
  induction evs as [|ev evs IH]; intros s s' Hidle Hrun.
  - destruct Hidle as [Hidle _]. cbn [run] in Hrun. injection Hrun as <-.
    split; [|split; [reflexivity | exact Hidle]].
    unfold poll_pid. rewrite Hidle, andb_false_r. reflexivity.
  - destruct Hidle as [Hidle Hrest]. cbn [run] in Hrun.
    destruct (step ev s) as [s1|] eqn:E; [|discriminate].
    destruct (IH s1 s' Hrest Hrun) as (_ & Hout & Hfin).
    split; [|split; [|exact Hfin]].
    + unfold poll_pid. rewrite Hidle, andb_false_r. reflexivity.
    + rewrite Hout. apply (step_idle_outputs ev s s1 Hidle E).
Qed.


(** C10: in every state an execution reaches from the initial state, in
    particular at every boundary between two iterations of the main loop,
    an Idle state has a sample counter of 0; the sample interrupt leaves
    the counter of an Idle state alone. *)
Theorem idle_timer_is_zero s :
  reachable s ->
  truthy (g_flag_command_running s) = false ->
  g_command_timer_pids s = 0 /\
  g_command_timer_pids (ISR_TIMER2_COMPA_vect s) = 0.
Proof.
  intros [evs Hreach] Hidle.
  pose proof (idle_timer_zero_reachable evs s Hreach Hidle) as Hzero.
  split; [exact Hzero|].
  unfold ISR_TIMER2_COMPA_vect. rewrite Hidle. exact Hzero.
Qed.

(** *** Further properties of the scheduler *)

Lemma run_app evs1 evs2 s :
  run (evs1 ++ evs2) s
  = match run evs1 s with
    | Some s1 => run evs2 s1
    | None => None
    end.
Proof.
  revert s. induction evs1 as [|ev evs1 IH]; intros s; cbn [app run]; [reflexivity|].
  destruct (step ev s) as [s1|]; [apply IH | reflexivity].
Qed.

Lemma run_overflows (n : nat) :
  forall s,
    0 <= pulse_tick_counter_high_nibble s ->
    pulse_tick_counter_high_nibble s + Z.of_nat n < 65536 ->
    exists s',
      run (repeat EvTIMER1_OVF n) s = Some s' /\
      pulse_tick_counter_high_nibble s' = pulse_tick_counter_high_nibble s + Z.of_nat n /\
      g_motor_1 s' = g_motor_1 s /\ g_motor_2 s' = g_motor_2 s.
Proof.
  induction n as [|n IH]; intros s H0 Hn; cbn [repeat run step].
  - exists s. repeat split. lia.
  - destruct (IH (ISR_TIMER1_OVF_vect s)) as (s' & Hrun & Hh & H1 & H2).
    + cbn. unfold u16. rewrite Z.mod_small; lia.
    + cbn. unfold u16. rewrite Z.mod_small; lia.
    + exists s'. split; [exact Hrun|]. split; [|split; assumption].
      rewrite Hh. cbn. unfold u16. rewrite Z.mod_small; lia.
Qed.

(** Tick extension: between two edges of an encoder, with [n] overflows of
    the 16-bit timer in between and the rollover counter not wrapping, the
    interval the estimator will use is [n * 65536 + t2 - t1], the distance
    between the two timer readings. *)
Theorem overflows_extend_tick (n : nat) (t1 t2 : Z) s :
  is_u16 t1 -> is_u16 t2 ->
  0 <= pulse_tick_counter_high_nibble s ->
  pulse_tick_counter_high_nibble s + Z.of_nat n < 65536 ->
  t1 <= Z.of_nat n * 65536 + t2 ->
  (exists s',
     run (EvINT0 t1 :: repeat EvTIMER1_OVF n ++ [EvINT0 t2]) s = Some s' /\
     tick_interval (hall_encoder (g_motor_1 s')) = Z.of_nat n * 65536 + t2 - t1 /\
     is_measurement_ready (hall_encoder (g_motor_1 s')) = 1) /\
  (exists s',
     run (EvINT1 t1 :: repeat EvTIMER1_OVF n ++ [EvINT1 t2]) s = Some s' /\
     tick_interval (hall_encoder (g_motor_2 s')) = Z.of_nat n * 65536 + t2 - t1 /\
     is_measurement_ready (hall_encoder (g_motor_2 s')) = 1).
Proof.
  unfold is_u16. intros Ht1 Ht2 H0 Hn Hle.
  set (h := pulse_tick_counter_high_nibble s) in *.
  assert (E1 : Z.lor (u16 t1) (u32 (Z.shiftl h 16)) = h * 65536 + t1).
  { unfold u16. rewrite Z.mod_small by lia.
    rewrite u32_small by (rewrite Z.shiftl_mul_pow2 by lia; change (2 ^ 16) with 65536; lia).
    apply lor_high_low; lia. }
  assert (E2 : Z.lor (u16 t2) (u32 (Z.shiftl (h + Z.of_nat n) 16))
               = (h + Z.of_nat n) * 65536 + t2).
  { unfold u16. rewrite Z.mod_small by lia.
    rewrite u32_small by (rewrite Z.shiftl_mul_pow2 by lia; change (2 ^ 16) with 65536; lia).
    apply lor_high_low; lia. }
  split.
  - cbn [run step]. unfold ISR_INT0_vect at 1. cbn [hall_encoder_do_save_timer_value].
    rewrite run_app.
    match goal with |- context [run (repeat _ n) ?s0] =>
      destruct (run_overflows n s0) as (s1 & -> & Hh & Hm1 & _); [exact H0 | exact Hn |]
    end.
    cbn [pulse_tick_counter_high_nibble set_g_motor_1] in Hh.
    cbn [g_motor_1 set_g_motor_1] in Hm1.
    cbn [run step]. unfold ISR_INT0_vect. cbn [hall_encoder_do_save_timer_value].
    eexists. split; [reflexivity|].
    cbn [g_motor_1 set_g_motor_1 hall_encoder set_hall_encoder is_measurement_ready].
    split; [|reflexivity].
    rewrite Hm1, Hh. fold h.
    unfold tick_interval.
    cbn [hall_encoder set_hall_encoder timer_value buffered_timer_value].
    fold h. rewrite E1, E2.
    destruct (Z.gtb_spec (h * 65536 + t1) ((h + Z.of_nat n) * 65536 + t2)); [lia|].
    rewrite u32_small by lia. lia.
  - cbn [run step]. unfold ISR_INT1_vect at 1. cbn [hall_encoder_do_save_timer_value].
    rewrite run_app.
    match goal with |- context [run (repeat _ n) ?s0] =>
      destruct (run_overflows n s0) as (s1 & -> & Hh & _ & Hm2); [exact H0 | exact Hn |]
    end.
    cbn [pulse_tick_counter_high_nibble set_g_motor_2] in Hh.
    cbn [g_motor_2 set_g_motor_2] in Hm2.
    cbn [run step]. unfold ISR_INT1_vect. cbn [hall_encoder_do_save_timer_value].
    eexists. split; [reflexivity|].
    cbn [g_motor_2 set_g_motor_2 hall_encoder set_hall_encoder is_measurement_ready].
    split; [|reflexivity].
    rewrite Hm2, Hh. fold h.
    unfold tick_interval.
    cbn [hall_encoder set_hall_encoder timer_value buffered_timer_value].
    fold h. rewrite E1, E2.
    destruct (Z.gtb_spec (h * 65536 + t1) ((h + Z.of_nat n) * 65536 + t2)); [lia|].
    rewrite u32_small by lia. lia.
Qed.

(** *** Invariants of every execution *)

(** Splits the conjunctions that are written out, not the ones inside a
    range predicate. *)
Ltac splits := repeat match goal with |- _ /\ _ => split end.

Lemma do_update_rps_range (h : hall_encoder_t) :
  encoder_in_range h ->
  exists h', do_update_rps (Some h) = Some h' /\ encoder_in_range h'.
Proof.
  intros (Ht & Hb & Hr).
  destruct (do_update_rps_total h) as (h' & E & E1 & E2 & E3).
  exists h'. split; [exact E|]. unfold encoder_in_range. rewrite E1, E2, E3.
  splits; assumption.
Qed.

Lemma set_ready_range (h : hall_encoder_t) (b : Z) :
  encoder_in_range h -> is_flag b -> encoder_in_range (set_is_measurement_ready h b).
Proof. intros (Ht & Hb & _) Hf. unfold encoder_in_range. splits; assumption. Qed.

Lemma capture_range (tcnt1 high : Z) (h : hall_encoder_t) :
  is_u16 high -> encoder_in_range h ->
  exists h', hall_encoder_do_save_timer_value tcnt1 high (Some h) = Some h' /\
             encoder_in_range h'.
Proof.
  unfold is_u16. intros Hh (Ht & Hb & _).
  eexists. split; [reflexivity|]. unfold encoder_in_range.
  cbn [timer_value buffered_timer_value is_measurement_ready].
  split; [|split; [exact Ht | right; reflexivity]].
  assert (Hlow : 0 <= u16 tcnt1 < 65536) by (unfold u16; apply Z.mod_pos_bound; lia).
  rewrite u32_small
    by (rewrite Z.shiftl_mul_pow2 by lia; change (2 ^ 16) with 65536; lia).
  rewrite lor_high_low by lia. unfold is_u32. lia.
Qed.

Lemma mask_command_range (buffer : Z) : 0 <= mask_command buffer <= 127.
Proof.
  unfold mask_command, i8.
  assert (H : 0 <= Z.land buffer 127 < 128).
  { change 127 with (Z.ones 7). rewrite Z.land_ones by lia.
    change (2 ^ 7) with 128. apply Z.mod_pos_bound. lia. }
  rewrite Z.mod_small by lia. lia.
Qed.

Lemma i8_range (z : Z) : -128 <= i8 z <= 127.
Proof.
  unfold i8. pose proof (Z.mod_pos_bound (z + 128) 256 ltac:(lia)). lia.
Qed.

Lemma calculate_oc_value_u8 (duty : Z) : is_u8 (calculate_oc_value_from_dc duty).
Proof. unfold calculate_oc_value_from_dc. apply u8_is_u8. Qed.

(** Closes one component of the range invariant. *)
Ltac range_done :=
  first
    [ assumption
    | apply set_ready_range; [assumption | left; reflexivity]
    | left; reflexivity
    | right; reflexivity
    | apply u8_is_u8
    | apply calculate_oc_value_u8
    | apply i8_range
    | unfold is_u8, is_u16, is_u32, u16, u32; first [lia | apply Z.mod_pos_bound; lia] ].

Lemma do_advance_pids_range s :
  is_u8 (OCR0A (do_advance_pids s)) /\ is_u8 (OCR0B (do_advance_pids s)).
Proof.
  unfold do_advance_pids.
  destruct (PID_Advance (pid (g_motor_1 s)) _ _) as [q1 i1].
  cbn [g_motor_2 set_g_motor_1 set_OCR0B].
  destruct (PID_Advance (pid (g_motor_2 s)) _ _) as [q2 i2].
  cbn [OCR0A OCR0B set_TCNT0 set_OCR0A set_OCR0B set_g_motor_1 set_g_motor_2].
  split; apply calculate_oc_value_u8.
Qed.

Lemma in_range_step ev s s' :
  in_range s -> step ev s = Some s' -> in_range s'.
Proof.
  unfold in_range.
  intros (Hh & He1 & He2 & Hfp & Ht & Hfr & Hbuf & Hrun & Hpb & Hpd & Hoa & Hob & Htc) Hstep.
  destruct ev as [|tc|tc| | |ucsr udr]; cbn [step] in Hstep.
  - unfold main_step in Hstep. destruct (loop_position s).
    + unfold poll_rps_1 in Hstep.
      destruct (truthy (is_measurement_ready (hall_encoder (g_motor_1 s)))).
      * destruct (do_update_rps_range _ He1) as (h' & E & Hr'). rewrite E in Hstep.
        injection Hstep as <-. cbn. splits; range_done.
      * injection Hstep as <-. cbn. splits; range_done.
    + unfold poll_rps_2 in Hstep.
      destruct (truthy (is_measurement_ready (hall_encoder (g_motor_2 s)))).
      * destruct (do_update_rps_range _ He2) as (h' & E & Hr'). rewrite E in Hstep.
        injection Hstep as <-. cbn. splits; range_done.
      * injection Hstep as <-. cbn. splits; range_done.
    + injection Hstep as <-. unfold poll_pid. destruct (_ && _).
      * destruct (do_advance_pids_range s) as [Ha Hb'].
        destruct (do_advance_pids_frame s) as (p1 & p2 & oca & ocb & E).
        rewrite E in *. cbn in *. splits; range_done.
      * cbn. splits; range_done.
    + injection Hstep as <-. unfold poll_command.
      destruct (truthy (g_flag_command_received s)).
      * unfold do_parse_command. destruct (truthy (g_flag_command_running s)).
        -- cbn. splits; range_done.
        -- unfold set_motor_direction. cbn.
           pose proof (direction_ports_u8
                         (decode_command (mask_command (g_command_buffer s)))
                         (PORTB s) (PORTD s) Hpb Hpd) as [Hb' Hd'].
           destruct (set_motor_direction_ports _ _ _) as [pb pd]. cbn in *.
           pose proof (mask_command_range (g_command_buffer s)).
           splits; try range_done; lia.
      * cbn. splits; range_done.
    + injection Hstep as <-. unfold poll_complete. destruct (_ && _).
      * cbn. splits; range_done.
      * cbn. splits; range_done.
  - unfold ISR_INT0_vect in Hstep.
    destruct (capture_range tc _ _ Hh He1) as (h' & E & Hr'). rewrite E in Hstep.
    injection Hstep as <-. cbn. splits; range_done.
  - unfold ISR_INT1_vect in Hstep.
    destruct (capture_range tc _ _ Hh He2) as (h' & E & Hr'). rewrite E in Hstep.
    injection Hstep as <-. cbn. splits; range_done.
  - injection Hstep as <-. cbn. splits; range_done.
  - injection Hstep as <-. unfold ISR_TIMER2_COMPA_vect.
    destruct (truthy (g_flag_command_running s)); cbn; splits; range_done.
  - injection Hstep as <-. unfold ISR_USART_RX_vect. destruct (_ && _); cbn;
      splits; range_done.
Qed.

Lemma in_range_initial : in_range (initial_state (pid_t := pid_t)).
Proof.
  unfold in_range, encoder_in_range, is_u8, is_u16, is_u32, is_flag. cbn.
  change (SET_BIT 4 3) with 12.
  repeat split; try lia; left; reflexivity.
Qed.

(** Every value stays in the range of its C type: in every reachable state
    the rollover counter is a 16-bit value, the tick latches and the sample
    counter are 32-bit values, the command buffer is an [int8_t], the four
    flags and the two ready flags are 0 or 1, and the ports, the compare
    registers and the PWM counter reset are 8-bit values. *)
Theorem reachable_in_range s : reachable s -> in_range s.
Proof.
  intros [evs Hrun].
  exact (run_invariant (@in_range pid_t) in_range_step evs _ s in_range_initial Hrun).
Qed.

(** The ports after a step, in terms of the ports before it. *)
Lemma step_ports ev s s' :
  step ev s = Some s' ->
  (PORTB s', PORTD s') = (PORTB s, PORTD s) \/
  (ev = EvMain /\ loop_position s = POLL_COMMAND /\
   truthy (g_flag_command_received s) = true /\
   truthy (g_flag_command_running s) = false /\
   (PORTB s', PORTD s')
   = set_motor_direction_ports
       (decode_command (mask_command (g_command_buffer s))) (PORTB s) (PORTD s)).
Proof.
  intros Hstep. step_cases Hstep; cbn; try (left; reflexivity).
  - unfold poll_pid. destruct (_ && _); [|left; reflexivity].
    destruct (do_advance_pids_frame s) as (p1 & p2 & oca & ocb & ->). left. reflexivity.
  - unfold poll_command. destruct (truthy (g_flag_command_received s)) eqn:R;
      [|left; reflexivity].
    destruct (truthy (g_flag_command_running s)) eqn:G.
    + unfold do_parse_command. rewrite G. left. reflexivity.
    + destruct (do_parse_command_idle s G) as (_ & _ & _ & _ & _ & P).
      right. repeat split. exact P.
  - unfold poll_complete. destruct (_ && _); left; reflexivity.
  - unfold ISR_TIMER2_COMPA_vect. destruct (truthy _); left; reflexivity.
  - unfold ISR_USART_RX_vect. destruct (_ && _); left; reflexivity.
Qed.

(** The direction outputs change only when the main loop parses a received
    byte while Idle; no interrupt handler and no other block of the loop
    writes them, the completion of a command included: the bridges keep the
    direction of the last command after it has ended. *)
Theorem ports_change_only_on_parse ev s s' :
  step ev s = Some s' ->
  (PORTB s', PORTD s') <> (PORTB s, PORTD s) ->
  ev = EvMain /\ loop_position s = POLL_COMMAND /\
  truthy (g_flag_command_received s) = true /\
  truthy (g_flag_command_running s) = false.
Proof.
  intros Hstep Hne.
  destruct (step_ports ev s s' Hstep) as [E|(E1 & E2 & E3 & E4 & _)]; [contradiction|].
  repeat split; assumption.
Qed.

Lemma ports_safe_step ev s s' :
  ports_safe s -> step ev s = Some s' -> ports_safe s'.
Proof.
  unfold ports_safe. intros (H1 & H2 & H3 & H4 & H5) Hstep.
  destruct (step_ports ev s s' Hstep) as [E|(_ & _ & _ & _ & E)].
  - injection E as -> ->. repeat split; assumption.
  - pose proof (direction_ports_inputs
                  (decode_command (mask_command (g_command_buffer s)))
                  (PORTB s) (PORTD s)) as T.
    rewrite <- E in T. destruct T as (T1 & T2 & T3 & T4 & T5).
    rewrite T1, T2, T3, T4, T5.
    destruct (decode_command _); repeat split; try assumption; discriminate.
Qed.

Lemma ports_safe_initial : ports_safe (initial_state (pid_t := pid_t)).
Proof. unfold ports_safe. cbn. repeat split; discriminate. Qed.

(** In every reachable state neither bridge has both of its direction
    inputs high, the pull-ups of the two encoder inputs are still on and the
    debug indicator is off. *)
Theorem reachable_ports_safe s : reachable s -> ports_safe s.
Proof.
  intros [evs Hrun].
  exact (run_invariant (@ports_safe pid_t) ports_safe_step evs _ s ports_safe_initial Hrun).
Qed.

Lemma no_pending_step ev s s' :
  no_pending_while_running s -> step ev s = Some s' -> no_pending_while_running s'.
Proof.
  unfold no_pending_while_running. intros HP Hstep.
  step_cases Hstep; cbn; try exact HP.
  - unfold poll_pid. destruct (_ && _); [|exact HP].
    destruct (do_advance_pids_frame s) as (p1 & p2 & oca & ocb & ->). exact HP.
  - unfold poll_command. destruct (truthy (g_flag_command_received s)) eqn:R; cbn.
    + intros _. reflexivity.
    + intros _. unfold truthy in R. destruct (Z.eqb_spec (g_flag_command_received s) 0);
        [assumption | discriminate].
  - unfold poll_complete. destruct (_ && _); cbn; [discriminate | exact HP].
  - unfold ISR_TIMER2_COMPA_vect. destruct (truthy (g_flag_command_running s)) eqn:R;
      cbn; rewrite R; exact HP.
  - unfold ISR_USART_RX_vect. destruct (truthy (g_flag_command_running s)) eqn:R.
    + rewrite andb_false_r. intros _. apply HP. reflexivity.
    + destruct (IS_BIT_SET ucsr RXC0); cbn; rewrite R; discriminate.
Qed.

(** Mutual exclusion of running and pending: in every reachable state in
    which a command is running the received flag is clear, so no byte waits
    to be parsed when the command ends. *)
Theorem reachable_no_pending s :
  reachable s ->
  truthy (g_flag_command_running s) = true ->
  g_flag_command_received s = 0 /\ poll_command s = s.
Proof.
  intros [evs Hrun] Hr.
  assert (H : no_pending_while_running s).
  { apply (run_invariant (@no_pending_while_running pid_t) no_pending_step
             evs initial_state s); [|exact Hrun].
    intros _. reflexivity. }
  specialize (H Hr). split; [exact H|].
  unfold poll_command. rewrite H. reflexivity.
Qed.

Lemma idle_setpoints_step ev s s' :
  idle_setpoints_zero s -> step ev s = Some s' -> idle_setpoints_zero s'.
Proof.
  unfold idle_setpoints_zero. intros HP Hstep.
  step_cases Hstep; cbn; try exact HP.
  - unfold poll_pid. destruct (_ && _); [|exact HP].
    destruct (do_advance_pids_frame s) as (p1 & p2 & oca & ocb & ->). exact HP.
  - unfold poll_command. destruct (truthy (g_flag_command_received s)); cbn; [|exact HP].
    unfold do_parse_command. destruct (truthy (g_flag_command_running s)) eqn:R; cbn.
    + rewrite R. discriminate.
    + unfold set_motor_direction. destruct (set_motor_direction_ports _ _ _). cbn.
      discriminate.
  - unfold poll_complete. destruct (_ && _); cbn; [|exact HP].
    intros _. split; reflexivity.
  - unfold ISR_TIMER2_COMPA_vect. destruct (truthy (g_flag_command_running s)) eqn:R;
      cbn; rewrite R; exact HP.
  - unfold ISR_USART_RX_vect. destruct (_ && _); cbn; exact HP.
Qed.

(** In every reachable Idle state both setpoints are 0: a setpoint is the
    "on" speed exactly while a command runs. *)
Theorem reachable_idle_setpoints s :
  reachable s ->
  truthy (g_flag_command_running s) = false ->
  setpoint (g_motor_1 s) = F32.zero /\ setpoint (g_motor_2 s) = F32.zero.
Proof.
  intros [evs Hrun].
  apply (run_invariant (@idle_setpoints_zero pid_t) idle_setpoints_step
           evs initial_state s); [|exact Hrun].
  intros _. split; reflexivity.
Qed.

(** *** The parser, the receiver and the blocks of the loop *)

(** The parser acts once: whatever the state, a second call right after the
    first changes nothing, since the first has set the running flag or found
    it set; and while a command runs, the command block of the loop only
    clears the received flag. *)
Theorem do_parse_command_once s :
  do_parse_command (do_parse_command s) = do_parse_command s /\
  (truthy (g_flag_command_running s) = true ->
   do_parse_command s = s /\
   poll_command s
   = if truthy (g_flag_command_received s) then set_g_flag_command_received s 0 else s).
Proof.
  split.
  - destruct (truthy (g_flag_command_running s)) eqn:R.
    + unfold do_parse_command. rewrite R, R. reflexivity.
    + destruct (do_parse_command_idle s R) as (_ & _ & R1 & _).
      unfold do_parse_command at 1. rewrite R1. reflexivity.
  - intros R. unfold poll_command, do_parse_command. rewrite R. split; reflexivity.
Qed.

(** While Idle the receive handler keeps the last byte only: of two bytes
    received before the loop parses, the second replaces the first; a byte
    is stored as an [int8_t] and raises the received flag; and a call with
    the receive-complete bit clear stores nothing. *)
Theorem rx_last_writer_wins s (ucsr1 udr1 ucsr2 udr2 : Z) :
  truthy (g_flag_command_running s) = false ->
  (IS_BIT_SET ucsr2 RXC0 = true ->
   ISR_USART_RX_vect ucsr2 udr2 (ISR_USART_RX_vect ucsr1 udr1 s)
   = ISR_USART_RX_vect ucsr2 udr2 s /\
   g_command_buffer (ISR_USART_RX_vect ucsr2 udr2 s) = i8 udr2 /\
   g_flag_command_received (ISR_USART_RX_vect ucsr2 udr2 s) = 1) /\
  (IS_BIT_SET ucsr2 RXC0 = false -> ISR_USART_RX_vect ucsr2 udr2 s = s).
Proof.
  intros Hidle.
  assert (E : forall ucsr udr (t : mcu pid_t),
             IS_BIT_SET ucsr RXC0 = true ->
             truthy (g_flag_command_running t) = false ->
             ISR_USART_RX_vect ucsr udr t
             = set_g_flag_command_received (set_g_command_buffer t (i8 udr)) 1).
  { intros ucsr udr t Hrxc Ht. unfold ISR_USART_RX_vect. rewrite Hrxc, Ht. reflexivity. }
  split.
  - intros Hrxc. rewrite (E ucsr2 udr2 s Hrxc Hidle).
    split; [|split; reflexivity].
    unfold ISR_USART_RX_vect at 2. rewrite Hidle, andb_true_r.
    destruct (IS_BIT_SET ucsr1 RXC0).
    + rewrite E by (exact Hrxc || exact Hidle). reflexivity.
    + apply E; assumption.
  - intros Hrxc. unfold ISR_USART_RX_vect. rewrite Hrxc. reflexivity.
Qed.

(** A latched measurement enters the filter once: the RPS block of a motor
    clears the ready flag, keeps the two latched tick values, and run again
    without a new capture it changes nothing. *)
Theorem measurement_used_once s :
  (exists s1,
     poll_rps_1 s = Some s1 /\ poll_rps_1 s1 = Some s1 /\
     (truthy (is_measurement_ready (hall_encoder (g_motor_1 s))) = true ->
      is_measurement_ready (hall_encoder (g_motor_1 s1)) = 0) /\
     timer_value (hall_encoder (g_motor_1 s1)) = timer_value (hall_encoder (g_motor_1 s)) /\
     buffered_timer_value (hall_encoder (g_motor_1 s1))
     = buffered_timer_value (hall_encoder (g_motor_1 s))) /\
  (exists s2,
     poll_rps_2 s = Some s2 /\ poll_rps_2 s2 = Some s2 /\
     (truthy (is_measurement_ready (hall_encoder (g_motor_2 s))) = true ->
      is_measurement_ready (hall_encoder (g_motor_2 s2)) = 0) /\
     timer_value (hall_encoder (g_motor_2 s2)) = timer_value (hall_encoder (g_motor_2 s)) /\
     buffered_timer_value (hall_encoder (g_motor_2 s2))
     = buffered_timer_value (hall_encoder (g_motor_2 s))).
Proof.
  split.
  - unfold poll_rps_1 at 1.
    destruct (truthy (is_measurement_ready (hall_encoder (g_motor_1 s)))) eqn:R.
    + destruct (do_update_rps_total (hall_encoder (g_motor_1 s)))
        as (h' & -> & E1 & E2 & _).
      eexists. split; [reflexivity|]. cbn. rewrite E1, E2.
      split; [|repeat split]. unfold poll_rps_1. reflexivity.
    + exists s. split; [reflexivity|]. split; [|split; [discriminate|split; reflexivity]].
      unfold poll_rps_1. rewrite R. reflexivity.
  - unfold poll_rps_2 at 1.
    destruct (truthy (is_measurement_ready (hall_encoder (g_motor_2 s)))) eqn:R.
    + destruct (do_update_rps_total (hall_encoder (g_motor_2 s)))
        as (h' & -> & E1 & E2 & _).
      eexists. split; [reflexivity|]. cbn. rewrite E1, E2.
      split; [|repeat split]. unfold poll_rps_2. reflexivity.
    + exists s. split; [reflexivity|]. split; [|split; [discriminate|split; reflexivity]].
      unfold poll_rps_2. rewrite R. reflexivity.
Qed.

(** A sample tick raised while Idle stays pending: along an execution that
    stays Idle the PI flag, once set by the sample interrupt, is never
    cleared, so the PI block runs in the first pass of the loop after a
    command has started. *)
Theorem sample_flag_kept_while_idle evs s s' :
  stays_idle (EvTIMER2_COMPA :: evs) s ->
  run (EvTIMER2_COMPA :: evs) s = Some s' ->
  g_flag_pid s' = 1.
Proof.
  intros [_ Hidle] Hrun. cbn [step] in Hidle. cbn [run step] in Hrun.
  assert (G : forall evs (s0 s1 : mcu pid_t),
             g_flag_pid s0 = 1 -> stays_idle evs s0 -> run evs s0 = Some s1 ->
             g_flag_pid s1 = 1).
  { clear. induction evs as [|ev evs IH]; intros s0 s1 Hf Hidle Hrun; cbn [run] in Hrun.
    - injection Hrun as <-. exact Hf.
    - destruct Hidle as [Hi Hrest].
      destruct (step ev s0) as [s2|] eqn:E; [|discriminate].
      apply (IH s2 s1); [|exact Hrest | exact Hrun].
      step_cases E; cbn; try exact Hf; try reflexivity.
      + unfold poll_pid. rewrite Hi, andb_false_r. exact Hf.
      + unfold poll_command. destruct (truthy (g_flag_command_received s0)); cbn;
          [|exact Hf].
        unfold do_parse_command. rewrite Hi.
        unfold set_motor_direction. destruct (set_motor_direction_ports _ _ _). exact Hf.
      + unfold poll_complete. rewrite Hi. exact Hf.
      + unfold ISR_USART_RX_vect. destruct (_ && _); exact Hf. }
  apply (G evs (ISR_TIMER2_COMPA_vect s) s'); [reflexivity | exact Hidle | exact Hrun].
Qed.

(** A command whose duration has elapsed ends in the next pass of the loop:
    from the top of the loop body, with the command running and the sample
    counter at 376 or more, the five blocks of one pass lead to Idle with the
    counter and both setpoints at 0 and both compare registers at 0xFF,
    whatever flags are pending; the direction outputs are left as they
    were. *)
Theorem command_completes_in_one_pass s :
  loop_position s = POLL_RPS_1 ->
  truthy (g_flag_command_running s) = true ->
  command_duration_pids <= g_command_timer_pids s ->
  exists s',
    run (repeat EvMain 5) s = Some s' /\
    loop_position s' = POLL_RPS_1 /\
    g_flag_command_running s' = 0 /\
    g_command_timer_pids s' = 0 /\
    setpoint (g_motor_1 s') = F32.zero /\
    setpoint (g_motor_2 s') = F32.zero /\
    OCR0A s' = 255 /\ OCR0B s' = 255 /\
    PORTB s' = PORTB s /\ PORTD s' = PORTD s.
Proof.
  intros Hpos Hrun Hdur. cbn [repeat run step].
  unfold main_step at 1. rewrite Hpos.
  destruct (poll_rps_1_frame s) as [h1 ->]. cbn [option_map].
  set (s1 := set_loop_position (set_g_motor_1 s (set_hall_encoder (g_motor_1 s) h1))
               POLL_RPS_2).
  unfold main_step at 1. change (loop_position s1) with POLL_RPS_2. cbv iota.
  destruct (poll_rps_2_frame s1) as [h2 ->]. cbn [option_map].
  set (s2 := set_loop_position (set_g_motor_2 s1 (set_hall_encoder (g_motor_2 s1) h2))
               POLL_PID).
  unfold main_step at 1. change (loop_position s2) with POLL_PID. cbv iota.
  assert (H3 : exists s3,
             poll_pid s2 = s3 /\
             g_flag_command_running s3 = g_flag_command_running s /\
             g_command_timer_pids s3 = g_command_timer_pids s /\
             PORTB s3 = PORTB s /\ PORTD s3 = PORTD s).
  { unfold poll_pid. destruct (_ && _).
    - destruct (do_advance_pids_frame s2) as (p1 & p2 & oca & ocb & ->).
      eexists. split; [reflexivity|]. repeat split.
    - exists s2. repeat split. }
  destruct H3 as (s3 & -> & R3 & T3 & B3 & D3).
  set (s3' := set_loop_position s3 POLL_COMMAND).
  unfold main_step at 1. change (loop_position s3') with POLL_COMMAND. cbv iota.
  assert (H4 : exists s4,
             poll_command s3' = s4 /\
             g_flag_command_running s4 = g_flag_command_running s /\
             g_command_timer_pids s4 = g_command_timer_pids s /\
             PORTB s4 = PORTB s /\ PORTD s4 = PORTD s).
  { unfold poll_command, do_parse_command.
    change (g_flag_command_running s3') with (g_flag_command_running s3).
    rewrite R3, Hrun.
    destruct (truthy (g_flag_command_received s3')); eexists;
      (split; [reflexivity|]); repeat split; assumption. }
  destruct H4 as (s4 & -> & R4 & T4 & B4 & D4).
  set (s4' := set_loop_position s4 POLL_COMPLETE).
  unfold main_step at 1. change (loop_position s4') with POLL_COMPLETE. cbv iota.
  unfold poll_complete.
  change (g_flag_command_running s4') with (g_flag_command_running s4).
  change (g_command_timer_pids s4') with (g_command_timer_pids s4).
  rewrite R4, T4, Hrun.
  replace (g_command_timer_pids s >=? command_duration_pids) with true
    by (symmetry; apply Z.geb_le; exact Hdur).
  eexists. split; [reflexivity|]. cbn. repeat split; assumption.
Qed.

(** The compare registers after a PI pass: when the two controller outputs
    truncate to duty cycles between 0 and 95, the bounds given to
    [PID_Init], motor 1 drives OCR0B and motor 2 drives OCR0A through the
    duty cycle mapping, both compare values lie between 12 and 255, the PWM
    counter is reset, and the flags, the sample counter, the setpoints, the
    encoders and the ports are left alone. *)
Theorem do_advance_pids_outputs s :
  let error_1 :=
    F32.sub (setpoint (g_motor_1 s)) (current_rps (hall_encoder (g_motor_1 s))) in
  let error_2 :=
    F32.sub (setpoint (g_motor_2 s)) (current_rps (hall_encoder (g_motor_2 s))) in
  let duty_1 := F32.to_Z (snd (PID_Advance (pid (g_motor_1 s)) SAMPLE_TIME_S error_1)) in
  let duty_2 := F32.to_Z (snd (PID_Advance (pid (g_motor_2 s)) SAMPLE_TIME_S error_2)) in
  0 <= duty_1 <= 95 -> 0 <= duty_2 <= 95 ->
  let s' := do_advance_pids s in
  OCR0B s' = 255 * (100 - duty_1) / 100 /\
  OCR0A s' = 255 * (100 - duty_2) / 100 /\
  12 <= OCR0B s' <= 255 /\ 12 <= OCR0A s' <= 255 /\
  TCNT0 s' = 0 /\
  pid (g_motor_1 s') = fst (PID_Advance (pid (g_motor_1 s)) SAMPLE_TIME_S error_1) /\
  pid (g_motor_2 s') = fst (PID_Advance (pid (g_motor_2 s)) SAMPLE_TIME_S error_2) /\
  hall_encoder (g_motor_1 s') = hall_encoder (g_motor_1 s) /\
  hall_encoder (g_motor_2 s') = hall_encoder (g_motor_2 s) /\
  setpoint (g_motor_1 s') = setpoint (g_motor_1 s) /\
  setpoint (g_motor_2 s') = setpoint (g_motor_2 s) /\
  g_flag_pid s' = g_flag_pid s /\
  g_flag_command_running s' = g_flag_command_running s /\
  g_flag_command_received s' = g_flag_command_received s /\
  g_command_timer_pids s' = g_command_timer_pids s /\
  g_command_buffer s' = g_command_buffer s /\
  PORTB s' = PORTB s /\ PORTD s' = PORTD s.
Proof.
  intros error_1 error_2 duty_1 duty_2 H1 H2 s'.
  assert (E : s' = do_advance_pids s) by reflexivity.
  unfold do_advance_pids in E. fold error_1 in E.
  destruct (PID_Advance (pid (g_motor_1 s)) SAMPLE_TIME_S error_1) as [p1 i1] eqn:A1.
  cbn [g_motor_2 set_g_motor_1 set_OCR0B setpoint hall_encoder] in E.
  fold error_2 in E.
  destruct (PID_Advance (pid (g_motor_2 s)) SAMPLE_TIME_S error_2) as [p2 i2] eqn:A2.
  cbn [snd fst] in *. subst duty_1 duty_2.
  pose proof (calculate_oc_value_quotient (F32.to_Z i1) ltac:(lia)) as Q1.
  pose proof (calculate_oc_value_quotient (F32.to_Z i2) ltac:(lia)) as Q2.
  rewrite E. cbn.
  rewrite !u32_small by lia. rewrite Q1, Q2.
  assert (B1 : 12 <= 255 * (100 - F32.to_Z i1) / 100 <= 255).
  { split; [apply Z.div_le_lower_bound; lia|].
    apply Z.lt_succ_r, Z.div_lt_upper_bound; lia. }
  assert (B2 : 12 <= 255 * (100 - F32.to_Z i2) / 100 <= 255).
  { split; [apply Z.div_le_lower_bound; lia|].
    apply Z.lt_succ_r, Z.div_lt_upper_bound; lia. }
  repeat split; lia.
Qed.

Lemma idle_compare_step ev s s' :
  idle_compare_values s -> step ev s = Some s' -> idle_compare_values s'.
Proof.
  unfold idle_compare_values. intros HP Hstep.
  step_cases Hstep; cbn; try exact HP.
  - unfold poll_pid. destruct (truthy (g_flag_command_running s)) eqn:R.
    + destruct (_ && _).
      * destruct (do_advance_pids_frame s) as (p1 & p2 & oca & ocb & ->). cbn.
        rewrite R. discriminate.
      * rewrite R. discriminate.
    + rewrite andb_false_r. intros _. apply HP. reflexivity.
  - unfold poll_command. destruct (truthy (g_flag_command_received s)); cbn; [|exact HP].
    unfold do_parse_command. destruct (truthy (g_flag_command_running s)) eqn:R; cbn.
    + rewrite R. discriminate.
    + unfold set_motor_direction. destruct (set_motor_direction_ports _ _ _). cbn.
      discriminate.
  - unfold poll_complete. destruct (_ && _); cbn; [|exact HP].
    intros _. right. split; reflexivity.
  - unfold ISR_TIMER2_COMPA_vect. destruct (truthy (g_flag_command_running s)) eqn:R;
      cbn; rewrite R; intros H; first [discriminate H | apply HP; reflexivity].
  - unfold ISR_USART_RX_vect. destruct (_ && _); cbn; exact HP.
Qed.

(** In every reachable Idle state the two compare registers are both 0xFF,
    written by the last completion, or both still 0, their value before the
    first command has completed: nothing writes them at start-up, and 0 is
    the compare value the mapping gives to a duty cycle of 100 percent. *)
Theorem reachable_idle_compare s :
  reachable s ->
  truthy (g_flag_command_running s) = false ->
  ((OCR0A s = 0 /\ OCR0B s = 0) \/ (OCR0A s = 255 /\ OCR0B s = 255)) /\
  OCR0A (initial_state (pid_t := pid_t)) = calculate_oc_value_from_dc 100.
Proof.
  intros [evs Hrun] Hidle. split; [|reflexivity].
  refine (run_invariant (@idle_compare_values pid_t) idle_compare_step
            evs initial_state s _ Hrun Hidle).
  intros _. left. split; reflexivity.
Qed.

(** An edge handled after the 16-bit timer has wrapped but before the
    overflow handler has counted the wrap is latched below the previous
    edge; the estimator takes the pair for a wrap of the whole 32-bit
    counter: the interval is [2^32 - 1 - (t1 - t2)], long enough to be
    accepted, so the filtered value is replaced by half the old one plus
    half of [16000000 / (interval * 245)], in binary32. *)
Theorem capture_before_overflow_handler (t1 t2 : Z) s :
  is_u16 t1 -> is_u16 t2 -> t2 < t1 ->
  is_u16 (pulse_tick_counter_high_nibble s) ->
  let high := pulse_tick_counter_high_nibble s in
  let old_rps := current_rps (hall_encoder (g_motor_1 s)) in
  exists s',
    run [EvINT0 t1; EvINT0 t2] s = Some s' /\
    hall_encoder (g_motor_1 s')
    = mk_hall_encoder (high * 65536 + t2) (high * 65536 + t1) old_rps 1 /\
    tick_interval (hall_encoder (g_motor_1 s')) = 4294967295 - (t1 - t2) /\
    do_update_rps (Some (hall_encoder (g_motor_1 s')))
    = Some (mk_hall_encoder
              (high * 65536 + t2)
              (high * 65536 + t1)
              (F32.add
                 (F32.mul F32.half old_rps)
                 (F32.mul F32.half
                    (F32.div (F32.of_Z 16000000)
                       (F32.mul (F32.of_Z (4294967295 - (t1 - t2))) (F32.of_Z 245)))))
              1).
Proof.
  unfold is_u16. intros Ht1 Ht2 Hlt Hh. cbv zeta.
  set (h := pulse_tick_counter_high_nibble s) in *.
  assert (E : forall t, 0 <= t < 65536 ->
                Z.lor (u16 t) (u32 (Z.shiftl h 16)) = h * 65536 + t).
  { intros t Ht. unfold u16. rewrite Z.mod_small by lia.
    rewrite u32_small by (rewrite Z.shiftl_mul_pow2 by lia; change (2 ^ 16) with 65536; lia).
    apply lor_high_low; lia. }
  cbn [run step]. unfold ISR_INT0_vect. cbn [hall_encoder_do_save_timer_value].
  cbn [pulse_tick_counter_high_nibble set_g_motor_1 g_motor_1 hall_encoder
         set_hall_encoder timer_value current_rps].
  fold h. rewrite !E by lia.
  eexists. split; [reflexivity|].
  cbn [g_motor_1 set_g_motor_1 hall_encoder set_hall_encoder].
  split; [reflexivity|].
  assert (T : tick_interval
                (mk_hall_encoder (h * 65536 + t2) (h * 65536 + t1)
                   (current_rps (hall_encoder (g_motor_1 s))) 1)
              = 4294967295 - (t1 - t2)).
  { unfold tick_interval, UINT32_MAX. cbn [timer_value buffered_timer_value].
    destruct (Z.gtb_spec (h * 65536 + t1) (h * 65536 + t2)); [|lia].
    rewrite (u32_small (4294967295 - _)) by lia. rewrite u32_small by lia. lia. }
  split; [exact T|].
  unfold do_update_rps, ticks_of. rewrite T.
  rewrite ticks_below_nine_tenths by lia.
  destruct (Z.eqb_spec (4294967295 - (t1 - t2)) 0); [lia|].
  rewrite new_rps_below_limit_iff by lia.
  destruct (Z.leb_spec 6531 (4294967295 - (t1 - t2))); [|lia].
  unfold set_current_rps, ema, RPS_ALPHA, new_rps_of, F_CPU, PULSES_PER_ROTATION.
  change (F32.sub (F32.of_Z 1) F32.half) with F32.half.
  reflexivity.
Qed.

End Properties.

(** ** The claims on concrete executions *)

(** The life of a command: 'w' received while Idle starts a run at the "on"
    speed; 375 sample interrupts later the command is still running; at 376
    the next pass of the loop returns to Idle with both setpoints at 0, both
    compare registers at 0xFF and the controllers' accumulated values
    cleared. *)
Example command_lifecycle :
  g_flag_command_running demo_pending = 0 /\
  g_flag_command_running demo_running = 1 /\
  setpoint (g_motor_1 demo_running) = motor_on_rps /\
  setpoint (g_motor_2 demo_running) = motor_on_rps /\
  g_flag_command_running
    (state_from demo_running (repeat EvTIMER2_COMPA 375 ++ repeat EvMain 5)) = 1 /\
  (let s := state_from demo_running (repeat EvTIMER2_COMPA 376 ++ repeat EvMain 5) in
   g_flag_command_running s = 0 /\
   g_command_timer_pids s = 0 /\
   setpoint (g_motor_1 s) = F32.zero /\
   setpoint (g_motor_2 s) = F32.zero /\
   OCR0A s = 255 /\ OCR0B s = 255 /\
   sp_integral (pid (g_motor_1 s)) = F32.zero /\
   sp_integral (pid (g_motor_2 s)) = F32.zero).
Proof. vm_compute. repeat split. Qed.

(** The completion check on the state reached after 376 sample interrupts. *)

Lemma command_completion_witness :
  loop_position demo_expired = POLL_COMPLETE /\
  truthy (g_flag_command_running demo_expired) = true /\
  command_duration_pids <= g_command_timer_pids demo_expired /\
  exists s',
    step EvMain demo_expired = Some s' /\
    g_flag_command_running s' = 0 /\
    g_command_timer_pids s' = 0.
Proof.
  assert (H1 : loop_position demo_expired = POLL_COMPLETE)
    by (vm_compute; reflexivity).
  assert (H2 : truthy (g_flag_command_running demo_expired) = true)
    by (vm_compute; reflexivity).
  assert (H3 : command_duration_pids <= g_command_timer_pids demo_expired)
    by (vm_compute; discriminate).
  split; [exact H1|]. split; [exact H2|]. split; [exact H3|].
  pose proof (command_completion spec_pid_t demo_expired H1 H2 H3) as T.
  destruct (proj2 (proj2 T)) as [s' Hs'].
  exists s'.
  exact (conj (proj1 Hs') (conj (proj1 (proj2 Hs')) (proj1 (proj2 (proj2 Hs'))))).
Defined.

(** The transition made for the byte 'w' received while Idle. *)
Lemma command_duration_start_witness :
  reachable demo_pending /\
  loop_position demo_pending = POLL_COMMAND /\
  truthy (g_flag_command_received demo_pending) = true /\
  truthy (g_flag_command_running demo_pending) = false /\
  exists s1,
    step EvMain demo_pending = Some s1 /\
    g_flag_command_running s1 = 1 /\
    g_command_timer_pids s1 = 0.
Proof.
  assert (H0 : reachable demo_pending)
    by (exists demo_receive; vm_compute; reflexivity).
  assert (H1 : loop_position demo_pending = POLL_COMMAND)
    by (vm_compute; reflexivity).
  assert (H2 : truthy (g_flag_command_received demo_pending) = true)
    by (vm_compute; reflexivity).
  assert (H3 : truthy (g_flag_command_running demo_pending) = false)
    by (vm_compute; reflexivity).
  split; [exact H0|]. split; [exact H1|]. split; [exact H2|]. split; [exact H3|].
  destruct (command_duration_start spec_pid_t demo_pending H0 H1 H2 H3)
    as [s1 Hs1].
  exists s1.
  exact (conj (proj1 Hs1) (conj (proj1 (proj2 Hs1)) (proj1 (proj2 (proj2 Hs1))))).
Defined.

(** The byte 's' arriving while the forward command runs. *)
Lemma rx_dropped_while_running_witness :
  truthy (g_flag_command_running demo_running) = true /\
  ISR_USART_RX_vect 128 (char "s") demo_running = demo_running.
Proof.
  assert (H : truthy (g_flag_command_running demo_running) = true)
    by (vm_compute; reflexivity).
  split; [exact H|].
  exact (proj1 (rx_dropped_while_running spec_pid_t demo_running 128 (char "s") [] H)).
Defined.

(** C4, as stated, fails: the byte 's' arrives while the forward command is
    running; it does not enter the command buffer, the received flag stays
    clear, and when the command has completed and the loop has gone round
    twice more the system is Idle with the direction outputs of the forward
    command: the byte is never executed. *)
Lemma rx_while_running_not_buffered :
  truthy (g_flag_command_running demo_running) = true /\
  IS_BIT_SET 128 RXC0 = true /\
  g_command_buffer (ISR_USART_RX_vect 128 (char "s") demo_running) <> i8 (char "s") /\
  g_flag_command_received (ISR_USART_RX_vect 128 (char "s") demo_running) = 0 /\
  run demo_collision demo_running = Some (state_from demo_running demo_collision) /\
  g_flag_command_running (state_from demo_running demo_collision) = 0 /\
  g_flag_command_received (state_from demo_running demo_collision) = 0 /\
  g_command_buffer (state_from demo_running demo_collision) <> i8 (char "s") /\
  PORTB (state_from demo_running demo_collision) = PORTB demo_running /\
  PORTD (state_from demo_running demo_collision) = PORTD demo_running.
Proof.
  split; [vm_compute; reflexivity|]. split; [vm_compute; reflexivity|].
  split; [vm_compute; discriminate|]. split; [vm_compute; reflexivity|].
  split; [vm_compute; reflexivity|]. split; [vm_compute; reflexivity|].
  split; [vm_compute; reflexivity|]. split; [vm_compute; discriminate|].
  split; vm_compute; reflexivity.
Qed.

(** C7: the masking does not reach every received byte.  With 'w' waiting
    in the buffer of an Idle system the parser masks it; the byte 0xF7 that
    is received before the switch reads the buffer again is compared
    unmasked, as -9: no case matches, the direction outputs stay at
    (PORTB, PORTD) = (0, 12) and the command runs with them.  The byte 0x77
    received at the same point is the forward command, outputs (4, 140); so
    is 0xF7 when the parser is not interrupted.  The command block then
    clears the received flag, and the byte is not parsed again. *)
Theorem parser_rereads_unmasked_byte :
  truthy (g_flag_command_running demo_pending) = false /\
  g_command_buffer demo_pending = char "w" /\
  (let s := do_parse_command_rx [(128, 247)] demo_pending in
   g_command_buffer s = -9 /\
   decode_command (g_command_buffer s) = COMMAND_UNKNOWN /\
   (PORTB s, PORTD s) = (0, 12) /\
   g_flag_command_running s = 1) /\
  (let s := do_parse_command_rx [(128, 119)] demo_pending in
   g_command_buffer s = 119 /\
   decode_command (g_command_buffer s) = COMMAND_FORWARD /\
   (PORTB s, PORTD s) = (4, 140) /\
   g_flag_command_running s = 1) /\
  (let s := do_parse_command (set_g_command_buffer demo_pending (i8 247)) in
   g_command_buffer s = 119 /\
   (PORTB s, PORTD s) = (4, 140)) /\
  g_flag_command_received (poll_command_rx [(128, 247)] demo_pending) = 0.
Proof.
  split; [vm_compute; reflexivity|]. split; [vm_compute; reflexivity|].
  split; [cbv zeta; repeat split; vm_compute; reflexivity|].
  split; [cbv zeta; repeat split; vm_compute; reflexivity|].
  split; [cbv zeta; repeat split; vm_compute; reflexivity|].
  vm_compute; reflexivity.
Qed.

(** The byte 0xF7. *)
Lemma parser_masks_bit7_witness :
  0 <= 247 < 256 /\
  decode_command (mask_command (i8 247))
  = decode_command (mask_command (i8 (Z.land 247 127))).
Proof.
  assert (H : 0 <= 247 < 256) by lia.
  split; [exact H|].
  exact (proj1 (parser_masks_bit7 spec_pid_t initial_state 247 H)).
Defined.

(** A sample interrupt and one pass of the loop from the initial state. *)
Lemma control_paused_while_idle_witness :
  stays_idle demo_idle_tick (initial_state (pid_t := spec_pid_t)) /\
  run demo_idle_tick initial_state = Some (state_after demo_idle_tick) /\
  control_outputs (state_after demo_idle_tick)
  = control_outputs (initial_state (pid_t := spec_pid_t)).
Proof.
  assert (H1 : stays_idle demo_idle_tick (initial_state (pid_t := spec_pid_t)))
    by (vm_compute; repeat split).
  assert (H2 : run demo_idle_tick initial_state = Some (state_after demo_idle_tick))
    by (vm_compute; reflexivity).
  split; [exact H1|]. split; [exact H2|].
  exact (proj1 (proj2 (control_paused_while_idle spec_pid_t _ _ _ H1 H2))).
Defined.


(** The state after a sample interrupt and one pass of the loop. *)
Lemma idle_timer_is_zero_witness :
  reachable (state_after demo_idle_tick) /\
  truthy (g_flag_command_running (state_after demo_idle_tick)) = false /\
  g_command_timer_pids (state_after demo_idle_tick) = 0.
Proof.
  assert (H1 : reachable (state_after demo_idle_tick))
    by (exists demo_idle_tick; vm_compute; reflexivity).
  assert (H2 : truthy (g_flag_command_running (state_after demo_idle_tick)) = false)
    by (vm_compute; reflexivity).
  split; [exact H1|]. split; [exact H2|].
  exact (proj1 (idle_timer_is_zero spec_pid_t _ H1 H2)).
Defined.

(** ** Further properties on concrete executions *)

(** 376 sample interrupts after the forward command has started, at the top
    of the loop body. *)
Lemma command_completes_in_one_pass_witness :
  loop_position (state_from demo_running (repeat EvTIMER2_COMPA 376)) = POLL_RPS_1 /\
  truthy (g_flag_command_running (state_from demo_running (repeat EvTIMER2_COMPA 376)))
  = true /\
  command_duration_pids
  <= g_command_timer_pids (state_from demo_running (repeat EvTIMER2_COMPA 376)) /\
  exists s',
    run (repeat EvMain 5) (state_from demo_running (repeat EvTIMER2_COMPA 376))
    = Some s' /\
    g_flag_command_running s' = 0.
Proof.
  set (s := state_from demo_running (repeat EvTIMER2_COMPA 376)).
  assert (H1 : loop_position s = POLL_RPS_1) by (vm_compute; reflexivity).
  assert (H2 : truthy (g_flag_command_running s) = true) by (vm_compute; reflexivity).
  assert (H3 : command_duration_pids <= g_command_timer_pids s)
    by (vm_compute; discriminate).
  split; [exact H1|]. split; [exact H2|]. split; [exact H3|].
  destruct (command_completes_in_one_pass spec_pid_t s H1 H2 H3) as [s' Hs'].
  exists s'. exact (conj (proj1 Hs') (proj1 (proj2 (proj2 Hs')))).
Defined.

(** Two edges of the encoder of motor 1, two timer overflows apart. *)
Lemma overflows_extend_tick_witness :
  is_u16 60000 /\ is_u16 100 /\
  0 <= pulse_tick_counter_high_nibble (initial_state (pid_t := spec_pid_t)) /\
  pulse_tick_counter_high_nibble (initial_state (pid_t := spec_pid_t)) + Z.of_nat 2 < 65536 /\
  60000 <= Z.of_nat 2 * 65536 + 100 /\
  exists s',
    run (EvINT0 60000 :: repeat EvTIMER1_OVF 2 ++ [EvINT0 100]) initial_state = Some s' /\
    tick_interval (hall_encoder (g_motor_1 s')) = Z.of_nat 2 * 65536 + 100 - 60000.
Proof.
  assert (H1 : is_u16 60000) by (unfold is_u16; lia).
  assert (H2 : is_u16 100) by (unfold is_u16; lia).
  assert (H3 : 0 <= pulse_tick_counter_high_nibble (initial_state (pid_t := spec_pid_t)))
    by (vm_compute; discriminate).
  assert (H4 : pulse_tick_counter_high_nibble (initial_state (pid_t := spec_pid_t))
               + Z.of_nat 2 < 65536) by (vm_compute; reflexivity).
  assert (H5 : 60000 <= Z.of_nat 2 * 65536 + 100) by (vm_compute; discriminate).
  split; [exact H1|]. split; [exact H2|]. split; [exact H3|]. split; [exact H4|].
  split; [exact H5|].
  destruct (proj1 (overflows_extend_tick spec_pid_t 2 60000 100 initial_state
                     H1 H2 H3 H4 H5)) as [s' Hs'].
  exists s'. exact (conj (proj1 Hs') (proj1 (proj2 Hs'))).
Defined.

(** The forward command running. *)
Lemma reachable_in_range_witness :
  reachable demo_running /\ in_range demo_running.
Proof.
  assert (H : reachable demo_running)
    by (exists (demo_receive ++ [EvMain; EvMain]); vm_compute; reflexivity).
  split; [exact H|]. exact (reachable_in_range spec_pid_t demo_running H).
Defined.

Lemma reachable_ports_safe_witness :
  reachable demo_running /\ ports_safe demo_running.
Proof.
  assert (H : reachable demo_running)
    by (exists (demo_receive ++ [EvMain; EvMain]); vm_compute; reflexivity).
  split; [exact H|]. exact (reachable_ports_safe spec_pid_t demo_running H).
Defined.

Lemma reachable_no_pending_witness :
  reachable demo_running /\
  truthy (g_flag_command_running demo_running) = true /\
  g_flag_command_received demo_running = 0.
Proof.
  assert (H : reachable demo_running)
    by (exists (demo_receive ++ [EvMain; EvMain]); vm_compute; reflexivity).
  assert (R : truthy (g_flag_command_running demo_running) = true)
    by (vm_compute; reflexivity).
  split; [exact H|]. split; [exact R|].
  exact (proj1 (reachable_no_pending spec_pid_t demo_running H R)).
Defined.

(** Idle after a sample interrupt and one pass of the loop. *)
Lemma reachable_idle_setpoints_witness :
  reachable (state_after demo_idle_tick) /\
  truthy (g_flag_command_running (state_after demo_idle_tick)) = false /\
  setpoint (g_motor_1 (state_after demo_idle_tick)) = F32.zero.
Proof.
  assert (H : reachable (state_after demo_idle_tick))
    by (exists demo_idle_tick; vm_compute; reflexivity).
  assert (R : truthy (g_flag_command_running (state_after demo_idle_tick)) = false)
    by (vm_compute; reflexivity).
  split; [exact H|]. split; [exact R|].
  exact (proj1 (reachable_idle_setpoints spec_pid_t _ H R)).
Defined.

(** The loop parses the pending byte 'w': the direction outputs change. *)
Lemma ports_change_only_on_parse_witness :
  step EvMain demo_pending = Some (state_from demo_pending [EvMain]) /\
  (PORTB (state_from demo_pending [EvMain]), PORTD (state_from demo_pending [EvMain]))
  <> (PORTB demo_pending, PORTD demo_pending) /\
  loop_position demo_pending = POLL_COMMAND.
Proof.
  assert (H1 : step EvMain demo_pending = Some (state_from demo_pending [EvMain]))
    by (vm_compute; reflexivity).
  assert (H2 : (PORTB (state_from demo_pending [EvMain]),
                PORTD (state_from demo_pending [EvMain]))
               <> (PORTB demo_pending, PORTD demo_pending))
    by (vm_compute; discriminate).
  split; [exact H1|]. split; [exact H2|].
  exact (proj1 (proj2 (ports_change_only_on_parse spec_pid_t EvMain demo_pending _ H1 H2))).
Defined.

(** The bytes 'a' then 'd' received while Idle. *)
Lemma rx_last_writer_wins_witness :
  truthy (g_flag_command_running (initial_state (pid_t := spec_pid_t))) = false /\
  IS_BIT_SET 128 RXC0 = true /\
  ISR_USART_RX_vect 128 (char "d") (ISR_USART_RX_vect 128 (char "a") initial_state)
  = ISR_USART_RX_vect 128 (char "d") (initial_state (pid_t := spec_pid_t)).
Proof.
  assert (H1 : truthy (g_flag_command_running (initial_state (pid_t := spec_pid_t))) = false)
    by (vm_compute; reflexivity).
  assert (H2 : IS_BIT_SET 128 RXC0 = true) by (vm_compute; reflexivity).
  split; [exact H1|]. split; [exact H2|].
  exact (proj1 (proj1 (rx_last_writer_wins spec_pid_t initial_state
                         128 (char "a") 128 (char "d") H1) H2)).
Defined.

(** A sample interrupt while Idle, then one pass of the loop. *)
Lemma sample_flag_kept_while_idle_witness :
  stays_idle demo_idle_tick (initial_state (pid_t := spec_pid_t)) /\
  run demo_idle_tick initial_state = Some (state_after demo_idle_tick) /\
  g_flag_pid (state_after demo_idle_tick) = 1.
Proof.
  assert (H1 : stays_idle demo_idle_tick (initial_state (pid_t := spec_pid_t)))
    by (vm_compute; repeat split).
  assert (H2 : run demo_idle_tick initial_state = Some (state_after demo_idle_tick))
    by (vm_compute; reflexivity).
  split; [exact H1|]. split; [exact H2|].
  exact (sample_flag_kept_while_idle spec_pid_t _ initial_state _ H1 H2).
Defined.

(** The first PI pass of the forward command, with the stand-in controller:
    both duty cycles are 4 percent. *)
Lemma do_advance_pids_outputs_witness :
  0 <= F32.to_Z (snd (PID_Advance (pid (g_motor_1 demo_running)) SAMPLE_TIME_S
                   (F32.sub (setpoint (g_motor_1 demo_running))
                      (current_rps (hall_encoder (g_motor_1 demo_running)))))) <= 95 /\
  0 <= F32.to_Z (snd (PID_Advance (pid (g_motor_2 demo_running)) SAMPLE_TIME_S
                   (F32.sub (setpoint (g_motor_2 demo_running))
                      (current_rps (hall_encoder (g_motor_2 demo_running)))))) <= 95 /\
  OCR0B (do_advance_pids demo_running) = 244 /\
  OCR0A (do_advance_pids demo_running) = 244 /\
  12 <= OCR0B (do_advance_pids demo_running) <= 255.
Proof.
  assert (H1 : 0 <= F32.to_Z (snd (PID_Advance (pid (g_motor_1 demo_running)) SAMPLE_TIME_S
                   (F32.sub (setpoint (g_motor_1 demo_running))
                      (current_rps (hall_encoder (g_motor_1 demo_running)))))) <= 95)
    by (vm_compute; split; discriminate).
  assert (H2 : 0 <= F32.to_Z (snd (PID_Advance (pid (g_motor_2 demo_running)) SAMPLE_TIME_S
                   (F32.sub (setpoint (g_motor_2 demo_running))
                      (current_rps (hall_encoder (g_motor_2 demo_running)))))) <= 95)
    by (vm_compute; split; discriminate).
  pose proof (do_advance_pids_outputs spec_pid_t demo_running H1 H2) as T.
  assert (E1 : OCR0B (do_advance_pids demo_running) = 244) by (vm_compute; reflexivity).
  assert (E2 : OCR0A (do_advance_pids demo_running) = 244) by (vm_compute; reflexivity).
  split; [exact H1|]. split; [exact H2|].
  split; [exact E1|]. split; [exact E2|].
  exact (proj1 (proj2 (proj2 T))).
Defined.

Lemma reachable_idle_compare_witness :
  reachable (state_after demo_idle_tick) /\
  truthy (g_flag_command_running (state_after demo_idle_tick)) = false /\
  ((OCR0A (state_after demo_idle_tick) = 0 /\ OCR0B (state_after demo_idle_tick) = 0) \/
   (OCR0A (state_after demo_idle_tick) = 255 /\ OCR0B (state_after demo_idle_tick) = 255)).
Proof.
  assert (H : reachable (state_after demo_idle_tick))
    by (exists demo_idle_tick; vm_compute; reflexivity).
  assert (R : truthy (g_flag_command_running (state_after demo_idle_tick)) = false)
    by (vm_compute; reflexivity).
  split; [exact H|]. split; [exact R|].
  exact (proj1 (reachable_idle_compare spec_pid_t _ H R)).
Defined.

(** An edge at 65000, the timer wraps, the next edge is read at 100 with
    the rollover counter not yet incremented. *)
Lemma capture_before_overflow_handler_witness :
  is_u16 65000 /\ is_u16 100 /\ 100 < 65000 /\
  is_u16 (pulse_tick_counter_high_nibble (initial_state (pid_t := spec_pid_t))) /\
  exists s',
    run [EvINT0 65000; EvINT0 100] initial_state = Some s' /\
    tick_interval (hall_encoder (g_motor_1 s')) = 4294967295 - (65000 - 100).
Proof.
  assert (H1 : is_u16 65000) by (unfold is_u16; lia).
  assert (H2 : is_u16 100) by (unfold is_u16; lia).
  assert (H3 : 100 < 65000) by lia.
  assert (H4 : is_u16 (pulse_tick_counter_high_nibble (initial_state (pid_t := spec_pid_t))))
    by (vm_compute; split; [discriminate | reflexivity]).
  split; [exact H1|]. split; [exact H2|]. split; [exact H3|]. split; [exact H4|].
  destruct (capture_before_overflow_handler spec_pid_t 65000 100 initial_state H1 H2 H3 H4)
    as [s' Hs'].
  exists s'. exact (conj (proj1 Hs') (proj1 (proj2 (proj2 Hs')))).
Defined.

(** A second parse of a running command is a no-op. *)
Lemma do_parse_command_once_witness :
  truthy (g_flag_command_running demo_running) = true /\
  do_parse_command demo_running = demo_running.
Proof.
  assert (R : truthy (g_flag_command_running demo_running) = true)
    by (vm_compute; reflexivity).
  split; [exact R|].
  exact (proj1 (proj2 (do_parse_command_once spec_pid_t demo_running) R)).
Defined.

(** One edge of encoder 1 is latched; the RPS block consumes it. *)
Lemma measurement_used_once_witness :
  truthy (is_measurement_ready
            (hall_encoder (g_motor_1 (state_after [EvINT0 100])))) = true /\
  exists s1,
    poll_rps_1 (state_after [EvINT0 100]) = Some s1 /\
    is_measurement_ready (hall_encoder (g_motor_1 s1)) = 0.
Proof.
  assert (R : truthy (is_measurement_ready
                        (hall_encoder (g_motor_1 (state_after [EvINT0 100])))) = true)
    by (vm_compute; reflexivity).
  split; [exact R|].
  destruct (proj1 (measurement_used_once spec_pid_t (state_after [EvINT0 100])))
    as [s1 H].
  exists s1. exact (conj (proj1 H) (proj1 (proj2 (proj2 H)) R)).
Defined.
